(** * sz_search_flask: a Flask gateway in front of the Senzing v4 engine,
      and its load generator

    Shallow embedding of [sz_search_flask.py] (error classifier, search
    endpoint, module initialisation) and of [sz_search_flask_perftest.py]
    (request sender, file driver, final report), with the properties the
    specification states about them.

    Conventions of the embedding:
    - a Python [str] is represented by its UTF-8 encoding, a Rocq [string];
      [bytes.decode()] is then the partial identity that checks the encoding;
    - raised exceptions are values [PyExc] (instances of [Exception]);
      [SystemExit] is a separate outcome, which [except Exception] lets
      through;
    - effects are explicit: every statement-level function is a state
      transformer over a world record, returning an [Outcome];
    - wall-clock readings ([time.time()]) and latencies are rationals. *)

From Stdlib Require Import ZArith QArith Qround String Ascii List Lia DecimalString.
From stdpp Require Import base strings gmap list.

Open Scope Z_scope.

(** ** The Python runtime, as far as the two programs use it *)

Module Py.

(** Exception classes.  The twenty-four keys of [EXCEPTION_HTTP_CODES] are
    constructors of their own; any other class is named by its qualified
    name. *)
Inductive ExcClass : Type :=
  | SzBadInputError
  | SzUnknownDataSourceError
  | SzNotFoundError
  | SzReplaceConflictError
  | SzRetryTimeoutExceededError
  | SzConfigurationError
  | SzNotInitializedError
  | SzDatabaseError
  | SzDatabaseConnectionLostError
  | SzDatabaseTransientError
  | SzLicenseError
  | SzUnrecoverableError
  | SzUnhandledError
  | SzRetryableError
  | SzSdkError
  | SzError
  | ValueError
  | TypeError
  | JSONDecodeError
  | ConnectionError
  | ConnectionRefusedError
  | TimeoutError
  | PermissionError
  | FileNotFoundError
  | OtherClass (qualname : string).

#[global] Instance ExcClass_eq_dec : EqDecision ExcClass.
Proof. solve_decision. Defined.

(** A raised exception: its exact class ([type(err)]) and its message
    ([str(err)]). *)
Record PyExc : Type := mkExc { exc_type : ExcClass; exc_str : string }.

(** Result of a call into a library or collaborator: a value or a raised
    exception. *)
Inductive PyResult (A : Type) : Type :=
  | Ok (a : A)
  | Err (e : PyExc).
Arguments Ok {A} a.
Arguments Err {A} e.

(** Outcome of running a piece of the program: normal completion, a raised
    [Exception], or [SystemExit] with its code. *)
Inductive Outcome (A : Type) : Type :=
  | Ret (a : A)
  | Raise (e : PyExc)
  | SysExit (code : Z).
Arguments Ret {A} a.
Arguments Raise {A} e.
Arguments SysExit {A} code.

(** State-and-exception monad over a world [W]. *)
Definition M (W A : Type) : Type := W -> Outcome A * W.

Definition ret {W A} (a : A) : M W A := fun w => (Ret a, w).

Definition bind {W A B} (m : M W A) (k : A -> M W B) : M W B :=
  fun w =>
    match m w with
    | (Ret a, w') => k a w'
    | (Raise e, w') => (Raise e, w')
    | (SysExit c, w') => (SysExit c, w')
    end.

Definition raise {W A} (e : PyExc) : M W A := fun w => (Raise e, w).

(** [exit(code)] / [sys.exit(code)]. *)
Definition sys_exit {W A} (code : Z) : M W A := fun w => (SysExit code, w).

Definition lift {W A} (r : PyResult A) : M W A :=
  match r with
  | Ok a => ret a
  | Err e => raise e
  end.

(** A function applied to the value of a result. *)
Definition result_map {A B} (f : A -> B) (r : PyResult A) : PyResult B :=
  match r with
  | Ok a => Ok (f a)
  | Err e => Err e
  end.

Definition get {W} : M W W := fun w => (Ret w, w).
Definition modify {W} (f : W -> W) : M W unit := fun w => (Ret tt, f w).

(** [try: body / except Exception as err: handler err].  [SystemExit] is not
    an [Exception] and passes through. *)
Definition try_except {W A} (body : M W A) (handler : PyExc -> M W A) : M W A :=
  fun w =>
    match body w with
    | (Raise e, w') => handler e w'
    | r => r
    end.

(** [try: body / except K as err: handler err] for a class test [is_k]. *)
Definition try_except_if {W A} (is_k : PyExc -> bool) (body : M W A)
    (handler : PyExc -> M W A) : M W A :=
  fun w =>
    match body w with
    | (Raise e, w') => if is_k e then handler e w' else (Raise e, w')
    | r => r
    end.

(** Truthiness of a [str] and of an optional [str] ([None] is falsy). *)
Definition truthy (s : string) : bool :=
  match s with
  | EmptyString => false
  | String _ _ => true
  end.

Definition truthy_opt (o : option string) : bool :=
  match o with
  | Some s => truthy s
  | None => false
  end.

(** [a or b] on an optional [str]. *)
Definition py_or (o : option string) (d : string) : string :=
  match o with
  | Some s => if truthy s then s else d
  | None => d
  end.

(** The newline character, as a string. *)
Definition nl : string := String "010"%char EmptyString.

(** [str(n)] for an integer. *)
Definition str_of_Z (z : Z) : string := NilZero.string_of_int (Z.to_int z).

(** [bytes.decode()]: strict UTF-8 (RFC 3629 table: no overlong forms, no
    surrogates, nothing above U+10FFFF). *)
Definition byte_in (lo hi : N) (b : Byte.byte) : bool :=
  ((lo <=? Byte.to_N b) && (Byte.to_N b <=? hi))%N.

Definition utf8_cont : Byte.byte -> bool := byte_in 0x80 0xBF.

Definition utf8_second3 (b1 b2 : Byte.byte) : bool :=
  if byte_in 0xE0 0xE0 b1 then byte_in 0xA0 0xBF b2
  else if byte_in 0xED 0xED b1 then byte_in 0x80 0x9F b2
  else utf8_cont b2.

Definition utf8_second4 (b1 b2 : Byte.byte) : bool :=
  if byte_in 0xF0 0xF0 b1 then byte_in 0x90 0xBF b2
  else if byte_in 0xF4 0xF4 b1 then byte_in 0x80 0x8F b2
  else utf8_cont b2.

Fixpoint utf8_valid (bs : list Byte.byte) : bool :=
  match bs with
  | [] => true
  | b1 :: r1 =>
      if byte_in 0x00 0x7F b1 then utf8_valid r1
      else if byte_in 0xC2 0xDF b1 then
        match r1 with
        | b2 :: r2 => utf8_cont b2 && utf8_valid r2
        | _ => false
        end
      else if byte_in 0xE0 0xEF b1 then
        match r1 with
        | b2 :: b3 :: r3 => utf8_second3 b1 b2 && utf8_cont b3 && utf8_valid r3
        | _ => false
        end
      else if byte_in 0xF0 0xF4 b1 then
        match r1 with
        | b2 :: b3 :: b4 :: r4 =>
            utf8_second4 b1 b2 && utf8_cont b3 && utf8_cont b4 && utf8_valid r4
        | _ => false
        end
      else false
  end.

(** The message of a [UnicodeDecodeError] names the offending byte and its
    position; only its class and the fact that it is raised matter here, so
    the text is abbreviated. *)
Definition UnicodeDecodeError : ExcClass := OtherClass "UnicodeDecodeError".

Definition decode (bs : list Byte.byte) : PyResult string :=
  if utf8_valid bs then Ok (string_of_list_byte bs)
  else Err (mkExc UnicodeDecodeError "'utf-8' codec can't decode byte").

(** [str.encode()] on the UTF-8 representation. *)
Definition encode (s : string) : list Byte.byte := list_byte_of_string s.

(** [s.split(sep)] for a one-character separator. *)
Fixpoint split_on (sep : ascii) (s : string) : list string :=
  match s with
  | EmptyString => [EmptyString]
  | String c s' =>
      if Ascii.eqb c sep then EmptyString :: split_on sep s'
      else match split_on sep s' with
           | h :: t => String c h :: t
           | [] => [String c EmptyString]
           end
  end.

(** Values produced by [json.loads] / accepted by [json.dumps]. *)
#[local] Set Warnings "-register-all".
Inductive Json : Type :=
  | JNull
  | JBool (b : bool)
  | JInt (z : Z)
  | JFloat (q : Q)
  | JStr (s : string)
  | JList (l : list Json)
  | JDict (items : list (string * Json)).

(** [isinstance(v, dict)]. *)
Definition is_dict (v : Json) : bool :=
  match v with
  | JDict _ => true
  | _ => false
  end.

(** The class hierarchy is that of the running interpreter and of the
    installed Senzing SDK: [mro c] is [c.__mro__]. *)
Class ClassHierarchy : Type := { mro : ExcClass -> list ExcClass }.

(** [isinstance(err, k)]. *)
Definition isinstance `{ClassHierarchy} (err : PyExc) (k : ExcClass) : bool :=
  bool_decide (k ∈ mro (exc_type err)).

(** A hierarchy to run the definitions on: CPython's built-in exception
    classes, the [requests] exceptions, and the Senzing classes grouped under
    their category base classes. *)
Definition Exception_ : ExcClass := OtherClass "Exception".
Definition OSError : ExcClass := OtherClass "OSError".
Definition SzGeneralError : ExcClass := OtherClass "senzing.SzGeneralError".
Definition RequestException : ExcClass :=
  OtherClass "requests.exceptions.RequestException".
Definition HTTPError : ExcClass := OtherClass "requests.exceptions.HTTPError".
Definition ZeroDivisionError : ExcClass := OtherClass "ZeroDivisionError".
Definition IndexError : ExcClass := OtherClass "IndexError".

Definition exception_mro : list ExcClass :=
  [Exception_; OtherClass "BaseException"; OtherClass "object"].

Definition python_mro (c : ExcClass) : list ExcClass :=
  match c with
  | SzError => SzError :: exception_mro
  | SzBadInputError | SzRetryableError | SzUnrecoverableError =>
      c :: SzError :: exception_mro
  | SzNotFoundError | SzUnknownDataSourceError =>
      c :: SzBadInputError :: SzError :: exception_mro
  | SzConfigurationError | SzReplaceConflictError | SzSdkError =>
      c :: SzGeneralError :: SzError :: exception_mro
  | SzDatabaseConnectionLostError | SzDatabaseTransientError
  | SzRetryTimeoutExceededError =>
      c :: SzRetryableError :: SzError :: exception_mro
  | SzDatabaseError | SzLicenseError | SzNotInitializedError
  | SzUnhandledError =>
      c :: SzUnrecoverableError :: SzError :: exception_mro
  | ValueError | TypeError => c :: exception_mro
  | JSONDecodeError => c :: ValueError :: exception_mro
  | ConnectionError | TimeoutError | PermissionError | FileNotFoundError =>
      c :: OSError :: exception_mro
  | ConnectionRefusedError => c :: ConnectionError :: OSError :: exception_mro
  | OtherClass name =>
      if String.eqb name "UnicodeDecodeError" then
        c :: OtherClass "UnicodeError" :: ValueError :: exception_mro
      else if String.eqb name "requests.exceptions.HTTPError" then
        c :: RequestException :: OSError :: exception_mro
      else if String.eqb name "requests.exceptions.RequestException" then
        c :: OSError :: exception_mro
      else if String.eqb name "senzing.SzGeneralError" then
        c :: SzError :: exception_mro
      else if String.eqb name "ZeroDivisionError" then
        c :: OtherClass "ArithmeticError" :: exception_mro
      else if String.eqb name "IndexError" then
        c :: OtherClass "LookupError" :: exception_mro
      else if String.eqb name "Exception" then exception_mro
      else c :: exception_mro
  end.

Definition python_hierarchy : ClassHierarchy := {| mro := python_mro |}.

End Py.

Export Py.

Declare Scope py_scope.
Delimit Scope py_scope with py.
Notation "x <- m ;; k" := (bind m (fun x => k))
  (at level 100, m at next level, right associativity) : py_scope.
Notation "m ;; k" := (bind m (fun _ => k))
  (at level 100, right associativity) : py_scope.

Open Scope py_scope.

(** ** sz_search_flask.py *)

Module Server.

(** *** Collaborators *)

(** The engine returned by the SDK factory: [search_by_attributes] takes the
    attributes, the flags and the search profile and returns the result
    string or raises. *)
Record SzEngine : Type :=
  { search_by_attributes : string -> Z -> string -> PyResult string }.

(** One call of [search_by_attributes], as the engine receives it. *)
Record EngineCall : Type :=
  { call_attributes : string; call_flags : Z; call_search_profile : string }.

(** [concurrent.futures.ThreadPoolExecutor(max_workers)]; [None] asks for the
    library's default size. *)
Record Executor : Type := { max_workers : option Z }.

(** What the module takes from its environment: the SDK (flag constant,
    factory), the builtin [int] on strings, and [app.run]. *)
Class Sdk : Type :=
  { SZ_SEARCH_BY_ATTRIBUTES_DEFAULT_FLAGS : Z;
    SzFactory : Type;
    SzAbstractFactoryCore : string -> string -> PyResult SzFactory;
    create_engine : SzFactory -> PyResult SzEngine;
    py_int : string -> PyResult Z;
    app_run : string -> Z -> bool -> PyResult unit }.

(** *** Process state *)

Inductive LogRecord : Type :=
  | LogInfo (msg : string)
  | LogError (msg : string).

Record World : Type :=
  { environ : gmap string string;
    stdout : list string;
    stderr : list string;
    logged : list LogRecord;
    sz_engine : option SzEngine;
    executor : option Executor;
    engine_calls : list EngineCall;
    listener : option (string * Z) }.

Definition print_stderr (line : string) : M World unit :=
  modify (fun w =>
    {| environ := environ w; stdout := stdout w; stderr := stderr w ++ [line];
       logged := logged w; sz_engine := sz_engine w; executor := executor w;
       engine_calls := engine_calls w; listener := listener w |}).

Definition log (r : LogRecord) : M World unit :=
  modify (fun w =>
    {| environ := environ w; stdout := stdout w; stderr := stderr w;
       logged := logged w ++ [r]; sz_engine := sz_engine w;
       executor := executor w; engine_calls := engine_calls w;
       listener := listener w |}).

Definition set_sz_engine (e : SzEngine) : M World unit :=
  modify (fun w =>
    {| environ := environ w; stdout := stdout w; stderr := stderr w;
       logged := logged w; sz_engine := Some e; executor := executor w;
       engine_calls := engine_calls w; listener := listener w |}).

Definition set_executor (x : Executor) : M World unit :=
  modify (fun w =>
    {| environ := environ w; stdout := stdout w; stderr := stderr w;
       logged := logged w; sz_engine := sz_engine w; executor := Some x;
       engine_calls := engine_calls w; listener := listener w |}).

Definition record_call (c : EngineCall) : M World unit :=
  modify (fun w =>
    {| environ := environ w; stdout := stdout w; stderr := stderr w;
       logged := logged w; sz_engine := sz_engine w; executor := executor w;
       engine_calls := engine_calls w ++ [c]; listener := listener w |}).

Definition set_listener (host : string) (port : Z) : M World unit :=
  modify (fun w =>
    {| environ := environ w; stdout := stdout w; stderr := stderr w;
       logged := logged w; sz_engine := sz_engine w; executor := executor w;
       engine_calls := engine_calls w; listener := Some (host, port) |}).

(** [os.getenv(name)] / [os.environ.get(name)]. *)
Definition getenv (name : string) : M World (option string) :=
  fun w => (Ret (environ w !! name), w).

(** *** Error code mapping table *)

(** [EXCEPTION_HTTP_CODES]: a dict literal; its iteration order is the order
    of the literal. *)
Definition EXCEPTION_HTTP_CODES : list (ExcClass * Z) :=
  [ (SzBadInputError, 400);
    (SzUnknownDataSourceError, 400);
    (SzNotFoundError, 404);
    (SzReplaceConflictError, 409);
    (SzRetryTimeoutExceededError, 408);
    (SzConfigurationError, 503);
    (SzNotInitializedError, 503);
    (SzDatabaseError, 503);
    (SzDatabaseConnectionLostError, 503);
    (SzDatabaseTransientError, 503);
    (SzLicenseError, 503);
    (SzUnrecoverableError, 500);
    (SzUnhandledError, 500);
    (SzRetryableError, 502);
    (SzSdkError, 502);
    (SzError, 422);
    (ValueError, 400);
    (TypeError, 400);
    (JSONDecodeError, 400);
    (ConnectionError, 503);
    (ConnectionRefusedError, 503);
    (TimeoutError, 504);
    (PermissionError, 403);
    (FileNotFoundError, 404) ].

(** [k in d] and [d[k]] on the table. *)
Fixpoint dict_get (d : list (ExcClass * Z)) (k : ExcClass) : option Z :=
  match d with
  | [] => None
  | (k', v) :: d' => if decide (k = k') then Some v else dict_get d' k
  end.

(** The loop [for mapped_exception, http_code in d.items()] with its early
    [return]. *)
Fixpoint scan_items `{ClassHierarchy} (err : PyExc) (items : list (ExcClass * Z))
    : option Z :=
  match items with
  | [] => None
  | (mapped_exception, http_code) :: rest =>
      if isinstance err mapped_exception then Some http_code
      else scan_items err rest
  end.

Definition exception_to_code `{ClassHierarchy} (err : PyExc) : Z :=
  let exception_type := exc_type err in
  match dict_get EXCEPTION_HTTP_CODES exception_type with
  | Some code => code
  | None =>
      match scan_items err EXCEPTION_HTTP_CODES with
      | Some http_code => http_code
      | None => 500
      end
  end.

(** *** The search endpoint *)

(** The part of Flask's [request] the handler reads: [request.data], the
    raw body of a request whose content type is not a form, and the query
    string ([request.args], a multi-dict in arrival order). *)
Record Request : Type :=
  { data : list Byte.byte; args : list (string * string) }.

(** [request.args.get(key)]: the first value of [key], or [None]. *)
Fixpoint args_get (a : list (string * string)) (key : string) : option string :=
  match a with
  | [] => None
  | (k, v) :: a' => if String.eqb k key then Some v else args_get a' key
  end.

Inductive Body : Type :=
  | BText (s : string)
  | BJson (j : Json).

Record Response : Type :=
  { status : Z; content_type : string; body : Body }.

(** [flask.jsonify(obj)]: a 200 response carrying the serialised object. *)
Definition jsonify (j : Json) : Response :=
  {| status := 200; content_type := "application/json"; body := BJson j |}.

(** What a view function may return here: a [str], or a
    [(response, status)] pair. *)
Inductive ViewReturn : Type :=
  | RvStr (s : string)
  | RvWithStatus (r : Response) (code : Z).

(** Flask's [make_response]: a [str] becomes a 200 response with the
    framework's default mimetype; in a pair the status overrides the
    response's own. *)
Definition make_response (rv : ViewReturn) : Response :=
  match rv with
  | RvStr s =>
      {| status := 200; content_type := "text/html; charset=utf-8";
         body := BText s |}
  | RvWithStatus r code =>
      {| status := code; content_type := content_type r; body := body r |}
  end.

Definition AttributeError : ExcClass := OtherClass "AttributeError".

Definition none_has_no (attr : string) : PyExc :=
  mkExc AttributeError ("'NoneType' object has no attribute '" +:+ attr +:+ "'").

(** [engine.search_by_attributes(attributes=..., flags=..., search_profile=...)] *)
Definition call_search (engine : option SzEngine) (attributes : string)
    (flags : Z) (search_profile : string) : M World string :=
  match engine with
  | None => raise (none_has_no "search_by_attributes")
  | Some e =>
      record_call {| call_attributes := attributes; call_flags := flags;
                     call_search_profile := search_profile |} ;;
      lift (search_by_attributes e attributes flags search_profile)
  end.

Definition process_search (engine : option SzEngine) (search_json : string)
    (engine_flags : Z) (profile : option string) : M World string :=
  try_except
    (result <- call_search engine search_json engine_flags
                 (py_or profile "SEARCH") ;;
     ret result)
    (fun err =>
       print_stderr (exc_str err +:+ " [" +:+ search_json +:+ "]") ;;
       raise err).

(** A future holds what its task did: the worker captures whatever the task
    raised, and [result()] re-raises it in the caller.  The embedding is
    sequential: the task runs when it is submitted. *)
Definition Future (A : Type) : Type := Outcome A.

Definition submit {A} (pool : option Executor) (task : M World A)
    : M World (Future A) :=
  match pool with
  | None => raise (none_has_no "submit")
  | Some _ => fun w => let (r, w') := task w in (Ret r, w')
  end.

Definition result {A} (task : Future A) : M World A := fun w => (task, w).

Definition do_search `{ClassHierarchy} `{Sdk} (request : Request)
    : M World ViewReturn :=
  user_request <- lift (decode (data request)) ;;
  let flags := SZ_SEARCH_BY_ATTRIBUTES_DEFAULT_FLAGS in
  let flags :=
    if truthy_opt (args_get (args request) "flags") then
      let user_flags := split_on "|" (default "" (args_get (args request) "flags")) in
      SZ_SEARCH_BY_ATTRIBUTES_DEFAULT_FLAGS
    else flags in
  try_except
    (w <- get ;;
     task <- submit (executor w)
               (process_search (sz_engine w) user_request flags
                  (args_get (args request) "profile")) ;;
     r <- result task ;;
     ret (RvStr r))
    (fun err =>
       ret (RvWithStatus (jsonify (JDict [("error", JStr (exc_str err))]))
              (exception_to_code err))).

(** What the client of [POST /search] observes: a response built from the
    view's return value, or the handler let an exception (or [SystemExit])
    escape. *)
Inductive Served : Type :=
  | Responded (r : Response)
  | Escaped (e : PyExc)
  | Exiting (code : Z).

Definition serve_search `{ClassHierarchy} `{Sdk} (request : Request) (w : World)
    : Served * World :=
  match do_search request w with
  | (Ret rv, w') => (Responded (make_response rv), w')
  | (Raise e, w') => (Escaped e, w')
  | (SysExit c, w') => (Exiting c, w')
  end.

(** *** Module initialisation and start-up *)

Definition MISSING_CONFIGURATION : string :=
  "The environment variable SENZING_ENGINE_CONFIGURATION_JSON "
  +:+ "must be set with a proper JSON configuration." +:+ nl
  +:+ "Please see https://senzing.zendesk.com/hc/en-us/articles/"
  +:+ "360038774134-G2Module-Configuration-and-the-Senzing-API".

Definition ThreadPoolExecutor (workers : option Z) : PyResult Executor :=
  match workers with
  | Some n =>
      if n <=? 0 then Err (mkExc ValueError "max_workers must be greater than 0")
      else Ok {| max_workers := Some n |}
  | None => Ok {| max_workers := None |}
  end.

(** The [try] block that runs when the module is loaded. *)
Definition module_init `{Sdk} : M World unit :=
  try_except
    (engine_config <- getenv "SENZING_ENGINE_CONFIGURATION_JSON" ;;
     (if negb (truthy_opt engine_config) then
        print_stderr MISSING_CONFIGURATION ;;
        sys_exit (-1)
      else ret tt) ;;
     sz_abstract_factory <-
       lift (SzAbstractFactoryCore "sz_search_flask" (default "" engine_config)) ;;
     engine <- lift (create_engine sz_abstract_factory) ;;
     set_sz_engine engine ;;
     threads <- getenv "SENZING_THREADS_PER_PROCESS" ;;
     workers <- match threads with
                | Some s => lift (py_int s)
                | None => ret 0
                end ;;
     let workers := if workers =? 0 then None else Some workers in
     pool <- lift (ThreadPoolExecutor workers) ;;
     set_executor pool ;;
     log (LogInfo "Senzing Engine and executor initialized successfully"))
    (fun err =>
       print_stderr (exc_str err) ;;
       sys_exit (-1)).

(** [str.lower()], on the ASCII letters. *)
Definition lower_ascii (c : ascii) : ascii :=
  let n := nat_of_ascii c in
  if ((65 <=? n) && (n <=? 90))%nat then ascii_of_nat (n + 32) else c.

Fixpoint lower (s : string) : string :=
  match s with
  | EmptyString => EmptyString
  | String c s' => String (lower_ascii c) (lower s')
  end.

(** The [if __name__ == '__main__'] block; [app.run] binds the listener. *)
Definition main_block `{Sdk} : M World unit :=
  try_except
    (port_env <- getenv "PORT" ;;
     port <- match port_env with
             | Some s => lift (py_int s)
             | None => ret 5000
             end ;;
     host_env <- getenv "HOST" ;;
     let host := default "0.0.0.0" host_env in
     debug_env <- getenv "FLASK_DEBUG" ;;
     let debug := String.eqb (lower (default "False" debug_env)) "true" in
     log (LogInfo ("Starting Flask app on " +:+ host +:+ ":" +:+ str_of_Z port)) ;;
     lift (app_run host port debug) ;;
     set_listener host port)
    (fun e =>
       log (LogError ("Failed to start application: " +:+ exc_str e)) ;;
       sys_exit 1).

(** Running the file as a script, from the initialisation block on: the
    SDK import at the top of the module has succeeded (the names used below
    come from it). *)
Definition script `{Sdk} : M World unit :=
  module_init ;;
  main_block.

(** The status the operating system sees for [SystemExit(code)]. *)
Definition exit_status (code : Z) : Z := code mod 256.

End Server.

(** ** sz_search_flask_perftest.py *)

Module PerfTest.

(** *** Collaborators *)

(** A [requests.Response], as far as it is read. *)
Record HttpResponse : Type :=
  { status_code : Z;
    reason : string;
    response_url : string;
    content : list Byte.byte }.

(** One call of [requests.post(url, data=..., headers=..., timeout=...)].
    [post_data] is the Python value passed as [data]: a [str] is [JStr]. *)
Record PostCall : Type :=
  { post_url : string;
    post_data : Json;
    post_content_type : string;
    post_timeout : Z }.

(** What the load generator takes from its environment: the JSON codecs
    ([orjson] may be missing; parsing and serialising may both raise),
    [str.strip], the file system, the network (the answer to the n-th call
    of [requests.post]), the clock (the n-th reading of [time.time()]) and
    [statistics.stdev].

    A file is read lazily: [open_file path] fails when the file cannot be
    opened and otherwise gives the lines the iteration yields;
    [read_error path] is the exception, if any, that the iteration raises
    after them (a decoding or input error part-way through the file).
    [orjson_dumps] stands for [orjson.dumps(data).decode('utf-8')]. *)
Class Client : Type :=
  { orjson : bool;
    json_loads : string -> PyResult Json;
    orjson_loads : string -> PyResult Json;
    json_dumps : Json -> PyResult string;
    orjson_dumps : Json -> PyResult string;
    strip : string -> string;
    open_file : string -> PyResult (list string);
    read_error : string -> option PyExc;
    requests_post : nat -> PostCall -> PyResult HttpResponse;
    clock : nat -> Q;
    stdev : list Q -> Q }.

(** *** State *)

(** A printed line.  Numbers are kept as numbers; the [:,], [:.2f] and
    [:.4f] renderings are not modelled. *)
Inductive Line : Type :=
  | Text (s : string)
  | Count (label : string) (n : Z)
  | Num (label : string) (q : Q) (unit : string)
  | Progress (processed : Z) (rate : Q) (errors : Z) (elapsed : Q).

(** The [PerformanceTest] object, the local [records_processed] of
    [process_file], and the environment's counters and logs. *)
Record World : Type :=
  { url : string;
    max_workers : Z;
    timeout : Z;
    request_times : list Q;
    error_count : Z;
    total_requests : Z;
    start_time : option Q;
    records_processed : Z;
    ticks : nat;
    posts : list PostCall;
    out : list Line }.

Definition set_request_times (v : list Q) (w : World) : World :=
  {| url := url w; max_workers := max_workers w; timeout := timeout w;
     request_times := v; error_count := error_count w;
     total_requests := total_requests w; start_time := start_time w;
     records_processed := records_processed w; ticks := ticks w;
     posts := posts w; out := out w |}.

Definition set_error_count (v : Z) (w : World) : World :=
  {| url := url w; max_workers := max_workers w; timeout := timeout w;
     request_times := request_times w; error_count := v;
     total_requests := total_requests w; start_time := start_time w;
     records_processed := records_processed w; ticks := ticks w;
     posts := posts w; out := out w |}.

Definition set_total_requests (v : Z) (w : World) : World :=
  {| url := url w; max_workers := max_workers w; timeout := timeout w;
     request_times := request_times w; error_count := error_count w;
     total_requests := v; start_time := start_time w;
     records_processed := records_processed w; ticks := ticks w;
     posts := posts w; out := out w |}.

Definition set_start_time (v : option Q) (w : World) : World :=
  {| url := url w; max_workers := max_workers w; timeout := timeout w;
     request_times := request_times w; error_count := error_count w;
     total_requests := total_requests w; start_time := v;
     records_processed := records_processed w; ticks := ticks w;
     posts := posts w; out := out w |}.

Definition set_records_processed (v : Z) (w : World) : World :=
  {| url := url w; max_workers := max_workers w; timeout := timeout w;
     request_times := request_times w; error_count := error_count w;
     total_requests := total_requests w; start_time := start_time w;
     records_processed := v; ticks := ticks w;
     posts := posts w; out := out w |}.

Definition set_ticks (v : nat) (w : World) : World :=
  {| url := url w; max_workers := max_workers w; timeout := timeout w;
     request_times := request_times w; error_count := error_count w;
     total_requests := total_requests w; start_time := start_time w;
     records_processed := records_processed w; ticks := v;
     posts := posts w; out := out w |}.

Definition set_posts (v : list PostCall) (w : World) : World :=
  {| url := url w; max_workers := max_workers w; timeout := timeout w;
     request_times := request_times w; error_count := error_count w;
     total_requests := total_requests w; start_time := start_time w;
     records_processed := records_processed w; ticks := ticks w;
     posts := v; out := out w |}.

Definition set_out (v : list Line) (w : World) : World :=
  {| url := url w; max_workers := max_workers w; timeout := timeout w;
     request_times := request_times w; error_count := error_count w;
     total_requests := total_requests w; start_time := start_time w;
     records_processed := records_processed w; ticks := ticks w;
     posts := posts w; out := v |}.

Definition print (l : Line) : M World unit :=
  modify (fun w => set_out (out w ++ [l]) w).

(** [time.time()] *)
Definition time_time `{Client} : M World Q :=
  fun w => (Ret (clock (ticks w)), set_ticks (S (ticks w)) w).

(** [requests.post(self.url, data=json_data,
    headers={'Content-Type': 'application/json'}, timeout=self.timeout)] *)
Definition post `{Client} (json_data : Json) : M World HttpResponse :=
  fun w =>
    let call := {| post_url := url w; post_data := json_data;
                   post_content_type := "application/json";
                   post_timeout := timeout w |} in
    lift (requests_post (length (posts w)) call)
         (set_posts (posts w ++ [call]) w).

(** [Response.raise_for_status()] of [requests]. *)
Definition raise_for_status (r : HttpResponse) : M World unit :=
  let http_error_msg :=
    if (400 <=? status_code r) && (status_code r <? 500) then
      str_of_Z (status_code r) +:+ " Client Error: " +:+ reason r
        +:+ " for url: " +:+ response_url r
    else if (500 <=? status_code r) && (status_code r <? 600) then
      str_of_Z (status_code r) +:+ " Server Error: " +:+ reason r
        +:+ " for url: " +:+ response_url r
    else EmptyString in
  if truthy http_error_msg then raise (mkExc HTTPError http_error_msg)
  else ret tt.

(** *** send_request *)

(** The dict [send_request] returns. *)
Inductive RequestResult : Type :=
  | Success (request_time : Q) (status : Z) (response_size : nat)
  | Failure (request_time : Q) (error : string).

Definition success (r : RequestResult) : bool :=
  match r with
  | Success _ _ _ => true
  | Failure _ _ => false
  end.

Definition send_request `{ClassHierarchy} `{Client} (data : Json)
    : M World RequestResult :=
  start <- time_time ;;
  try_except_if (fun e => isinstance e RequestException)
    (json_data <-
       lift (if is_dict data then
               if orjson then result_map JStr (orjson_dumps data)
               else result_map JStr (json_dumps data)
             else Ok data) ;;
     response <- post json_data ;;
     end_time <- time_time ;;
     let request_time := (end_time - start)%Q in
     raise_for_status response ;;
     ret (Success request_time (status_code response)
            (length (content response))))
    (fun e =>
       end_time <- time_time ;;
       let request_time := (end_time - start)%Q in
       ret (Failure request_time (exc_str e))).

(** *** Statistics *)

(** [sorted(l)]: a stable insertion sort. *)
Fixpoint insert_sorted (x : Q) (l : list Q) : list Q :=
  match l with
  | [] => [x]
  | y :: l' => if Qle_bool x y then x :: y :: l' else y :: insert_sorted x l'
  end.

Definition sorted (l : list Q) : list Q := foldr insert_sorted [] l.

(** [min(l)] and [max(l)] of a non-empty list: the first smallest and the
    first largest element. *)
Definition Qlt_bool (a b : Q) : bool := negb (Qle_bool b a).

Definition list_min (x : Q) (l : list Q) : Q :=
  fold_left (fun m y => if Qlt_bool y m then y else m) l x.

Definition list_max (x : Q) (l : list Q) : Q :=
  fold_left (fun m y => if Qlt_bool m y then y else m) l x.

(** [statistics.mean(l)] *)
Definition mean (l : list Q) : Q :=
  (foldr Qplus 0 l / inject_Z (Z.of_nat (length l)))%Q.

(** [int(n * p)] for a length [n] and a fraction [p]: the product is
    truncated, which for a non-negative product is the floor.  The source
    multiplies in binary floating point; for the four literals used (0.50,
    0.90, 0.95, 0.99) and any list length that fits in memory the truncated
    product is the exact floor of n * p, which is what is computed here. *)
Definition percentile_index (n : nat) (p : Q) : Z :=
  Qfloor (inject_Z (Z.of_nat n) * p).

(** [l[i]] for a non-negative index: [IndexError] when out of range. *)
Definition list_index (l : list Q) (i : Z) : M World Q :=
  match l !! Z.to_nat i with
  | Some x => ret x
  | None => raise (mkExc IndexError "list index out of range")
  end.

(** *** Reports *)

Definition TypeError_none_minus : PyExc :=
  mkExc TypeError "unsupported operand type(s) for -: 'float' and 'NoneType'".

Definition division_by_zero : PyExc :=
  mkExc ZeroDivisionError "float division by zero".

Definition modulo_by_zero : PyExc :=
  mkExc ZeroDivisionError "integer modulo by zero".

(** [time.time() - self.start_time] *)
Definition since_start `{Client} : M World Q :=
  now <- time_time ;;
  w <- get ;;
  match start_time w with
  | Some t0 => ret (now - t0)%Q
  | None => raise TypeError_none_minus
  end.

Definition print_progress_report `{Client} (processed : Z) : M World unit :=
  elapsed_time <- since_start ;;
  let records_per_second :=
    if Qlt_bool 0 elapsed_time then (inject_Z processed / elapsed_time)%Q
    else 0%Q in
  w <- get ;;
  print (Progress processed records_per_second (error_count w) elapsed_time).

Fixpoint repeat_string (s : string) (n : nat) : string :=
  match n with
  | O => EmptyString
  | S n' => s +:+ repeat_string s n'
  end.

(** The percentile lines: each f-string indexes [sorted_times] and is then
    printed. *)
Definition print_percentile (label : string) (sorted_times : list Q) (idx : Z)
    : M World unit :=
  v <- list_index sorted_times idx ;;
  print (Num label v "s").

Definition print_final_report `{Client} (processed : Z) : M World unit :=
  total_time <- since_start ;;
  print (Text (nl +:+ repeat_string "=" 60)) ;;
  print (Text "PERFORMANCE TEST RESULTS") ;;
  print (Text (repeat_string "=" 60)) ;;
  w <- get ;;
  let successes := Z.of_nat (length (request_times w)) in
  print (Count "Total records processed" processed) ;;
  print (Count "Total requests sent" (total_requests w)) ;;
  print (Count "Successful requests" successes) ;;
  print (Count "Failed requests" (error_count w)) ;;
  let success_rate :=
    if 0 <? total_requests w then
      (inject_Z successes / inject_Z (total_requests w) * 100)%Q
    else 0%Q in
  print (if 0 <? total_requests w then Num "Success rate" success_rate "%"
         else Text "N/A") ;;
  print (Num "Total time" total_time " seconds") ;;
  (if Qeq_bool total_time 0 then raise division_by_zero
   else print (Num "Overall rate" (inject_Z processed / total_time)%Q
                 " requests/second")) ;;
  match request_times w with
  | [] => ret tt
  | t :: ts =>
      print (Text (nl +:+ "TIMING STATISTICS:")) ;;
      print (Num "Average response time" (mean (t :: ts)) "s") ;;
      print (Num "Minimum response time" (list_min t ts) "s") ;;
      print (Num "Maximum response time" (list_max t ts) "s") ;;
      (if (1 <? length (t :: ts))%nat then
         print (Num "Standard deviation" (stdev (t :: ts)) "s")
       else ret tt) ;;
      let sorted_times := sorted (t :: ts) in
      let n := length sorted_times in
      let p50_idx := percentile_index n 0.50 in
      let p90_idx := percentile_index n 0.90 in
      let p95_idx := percentile_index n 0.95 in
      let p99_idx := percentile_index n 0.99 in
      print_percentile "50th percentile (median)" sorted_times p50_idx ;;
      print_percentile "90th percentile" sorted_times p90_idx ;;
      print_percentile "95th percentile" sorted_times p95_idx ;;
      print_percentile "99th percentile" sorted_times p99_idx
  end.

(** *** process_file *)

Definition Future (A : Type) : Type := Outcome A.

(** [executor.submit(fn, arg)]: the task's outcome, exception included, is
    kept in its future.  The embedding is sequential: the task runs when it
    is submitted. *)
Definition submit {A} (task : M World A) : M World (Future A) :=
  fun w => let (r, w') := task w in (Ret r, w').

Definition future_result {A} (f : Future A) : M World A := fun w => (f, w).

Definition loads `{Client} (line : string) : PyResult Json :=
  if orjson then orjson_loads line else json_loads line.

(** The loop over [enumerate(file, 1)]. *)
Fixpoint read_lines `{ClassHierarchy} `{Client} (lines : list string)
    (line_num : Z) (futures : list (Future RequestResult))
    : M World (list (Future RequestResult)) :=
  match lines with
  | [] => ret futures
  | line :: rest =>
      let line := strip line in
      if negb (truthy line) then read_lines rest (line_num + 1) futures
      else
        futures' <-
          try_except_if (fun e => isinstance e JSONDecodeError)
            (record <- lift (loads line) ;;
             future <- submit (send_request record) ;;
             ret (futures ++ [future]))
            (fun e =>
               print (Text ("ERROR: Invalid JSON on line " +:+ str_of_Z line_num
                              +:+ ": " +:+ exc_str e)) ;;
               ret futures) ;;
        read_lines rest (line_num + 1) futures'
  end.

(** The loop over [as_completed(futures)], taken in submission order. *)
Fixpoint collect_results `{Client} (futures : list (Future RequestResult))
    (report_interval : Z) : M World unit :=
  match futures with
  | [] => ret tt
  | future :: rest =>
      try_except
        (r <- future_result future ;;
         modify (fun w => set_total_requests (total_requests w + 1) w) ;;
         modify (fun w => set_records_processed (records_processed w + 1) w) ;;
         match r with
         | Success request_time _ _ =>
             modify (fun w => set_request_times (request_times w ++ [request_time]) w)
         | Failure _ error =>
             modify (fun w => set_error_count (error_count w + 1) w) ;;
             print (Text ("ERROR: Request failed - " +:+ error))
         end ;;
         w <- get ;;
         if report_interval =? 0 then raise modulo_by_zero
         else if records_processed w mod report_interval =? 0 then
           print_progress_report (records_processed w)
         else ret tt)
        (fun e =>
           modify (fun w => set_error_count (error_count w + 1) w) ;;
           print (Text ("ERROR: Exception processing request: " +:+ exc_str e))) ;;
      collect_results rest report_interval
  end.

(** [ThreadPoolExecutor(max_workers=self.max_workers)] *)
Definition new_pool : M World unit :=
  w <- get ;;
  if max_workers w <=? 0 then
    raise (mkExc ValueError "max_workers must be greater than 0")
  else ret tt.

(** The configuration printed on entry. *)
Definition print_configuration (report_interval : Z) : M World unit :=
  w <- get ;;
  print (Text ("Starting performance test with " +:+ str_of_Z (max_workers w)
                 +:+ " workers")) ;;
  print (Text ("Target URL: " +:+ url w)) ;;
  print (Text ("Timeout: " +:+ str_of_Z (timeout w) +:+ "s")) ;;
  print (Text ("Report interval: " +:+ str_of_Z report_interval +:+ " records")) ;;
  print (Text (repeat_string "-" 60)).

(** [self.start_time = time.time()] and [records_processed = 0]. *)
Definition start_clock `{Client} : M World unit :=
  t0 <- time_time ;;
  modify (set_start_time (Some t0)) ;;
  modify (set_records_processed 0).

(** The iteration over the file ends normally, or raises once the lines
    it could read have been handled. *)
Definition end_of_file `{Client} (file_path : string) : M World unit :=
  match read_error file_path with
  | Some e => raise e
  | None => ret tt
  end.

(** The body of the [try]: open the file, create the pool, submit one
    request per record while reading, collect the results. *)
Definition submit_and_collect `{ClassHierarchy} `{Client} (file_path : string)
    (report_interval : Z) : M World bool :=
  lines <- lift (open_file file_path) ;;
  new_pool ;;
  futures <- read_lines lines 1 [] ;;
  end_of_file file_path ;;
  collect_results futures report_interval ;;
  ret true.

(** The two [except] clauses; both [return False]. *)
Definition report_failure `{ClassHierarchy} (file_path : string) (e : PyExc)
    : M World bool :=
  if isinstance e FileNotFoundError then
    print (Text ("ERROR: File not found: " +:+ file_path)) ;;
    ret false
  else
    print (Text ("ERROR: Unexpected error: " +:+ exc_str e)) ;;
    ret false.

Definition process_file `{ClassHierarchy} `{Client} (file_path : string)
    (report_interval : Z) : M World bool :=
  print_configuration report_interval ;;
  start_clock ;;
  completed <-
    try_except (submit_and_collect file_path report_interval)
      (report_failure file_path) ;;
  if completed then
    w <- get ;;
    print_final_report (records_processed w) ;;
    ret true
  else ret false.

End PerfTest.

(** ** The error classifier, as the specification words it *)

Module Spec.
Import Server.

(** The status codes the classifier may answer. *)
Definition http_codes : list Z :=
  [400; 403; 404; 408; 409; 422; 500; 502; 503; 504].

(** The static table, one line per failure category. *)
Definition static_table (c : ExcClass) : option Z :=
  match c with
  | SzBadInputError => Some 400
  | SzUnknownDataSourceError => Some 400
  | SzNotFoundError => Some 404
  | SzReplaceConflictError => Some 409
  | SzRetryTimeoutExceededError => Some 408
  | SzConfigurationError | SzNotInitializedError | SzDatabaseError
  | SzDatabaseConnectionLostError | SzDatabaseTransientError
  | SzLicenseError => Some 503
  | SzUnrecoverableError | SzUnhandledError => Some 500
  | SzRetryableError | SzSdkError => Some 502
  | SzError => Some 422
  | ValueError | TypeError | JSONDecodeError => Some 400
  | ConnectionError | ConnectionRefusedError => Some 503
  | TimeoutError => Some 504
  | PermissionError => Some 403
  | FileNotFoundError => Some 404
  | OtherClass _ => None
  end.

(** The fixed order in which the table is scanned. *)
Definition table_order : list ExcClass :=
  [ SzBadInputError; SzUnknownDataSourceError; SzNotFoundError;
    SzReplaceConflictError; SzRetryTimeoutExceededError;
    SzConfigurationError; SzNotInitializedError; SzDatabaseError;
    SzDatabaseConnectionLostError; SzDatabaseTransientError; SzLicenseError;
    SzUnrecoverableError; SzUnhandledError; SzRetryableError; SzSdkError;
    SzError; ValueError; TypeError; JSONDecodeError; ConnectionError;
    ConnectionRefusedError; TimeoutError; PermissionError; FileNotFoundError ].

(** Exact type first, then the first entry the failure is an instance of,
    then 500. *)
Definition classify `{ClassHierarchy} (e : PyExc) : Z :=
  match static_table (exc_type e) with
  | Some code => code
  | None =>
      match List.find (isinstance e) table_order with
      | Some k => default 500 (static_table k)
      | None => 500
      end
  end.

(** *** Observations on the search endpoint *)

Section Observations.
Context `{Sdk}.

(** The world after a search that reached the engine: the call is logged,
    and a failure is echoed on the error stream by [process_search]. *)
Definition after_call (w : World) (c : EngineCall) (echo : list string) : World :=
  {| environ := environ w; stdout := stdout w; stderr := stderr w ++ echo;
     logged := logged w; sz_engine := sz_engine w; executor := executor w;
     engine_calls := engine_calls w ++ [c]; listener := listener w |}.

(** The call [do_search] makes for a request. *)
Definition forwarded (request : Request) : EngineCall :=
  {| call_attributes := string_of_list_byte (data request);
     call_flags := SZ_SEARCH_BY_ATTRIBUTES_DEFAULT_FLAGS;
     call_search_profile :=
       match args_get (args request) "profile" with
       | None => "SEARCH"
       | Some EmptyString => "SEARCH"
       | Some p => p
       end |}.

End Observations.

End Spec.

(** ** The load generator's report and file handling, as the specification
    words them *)

Module PerfSpec.
Import PerfTest.

(** The percentiles the final report prints. *)
Definition report_percentiles : list Q := [0.50; 0.90; 0.95; 0.99]%Q.

(** Nearest-rank selection: the element at index floor(n * p) of the sorted
    samples. *)
Definition percentile (times : list Q) (p : Q) : Q :=
  nth (Z.to_nat (Qfloor (inject_Z (Z.of_nat (length times)) * p)))
      (sorted times) 0%Q.

(** Ascending order. *)
Fixpoint ascending (l : list Q) : Prop :=
  match l with
  | [] => True
  | x :: l' => Forall (fun y => (x <= y)%Q) l' /\ ascending l'
  end.

Section Report.
Context `{Client}.

(** The summary block of the final report. *)
Definition summary_lines (processed : Z) (w : World) (total_time : Q)
    : list Line :=
  let successes := Z.of_nat (length (request_times w)) in
  [ Text (nl +:+ repeat_string "=" 60);
    Text "PERFORMANCE TEST RESULTS";
    Text (repeat_string "=" 60);
    Count "Total records processed" processed;
    Count "Total requests sent" (total_requests w);
    Count "Successful requests" successes;
    Count "Failed requests" (error_count w);
    (if 0 <? total_requests w then
       Num "Success rate"
         (inject_Z successes / inject_Z (total_requests w) * 100)%Q "%"
     else Text "N/A");
    Num "Total time" total_time " seconds";
    Num "Overall rate" (inject_Z processed / total_time)%Q " requests/second" ].

(** The timing block: mean, minimum, maximum, the standard deviation when
    there are at least two samples, and the four percentiles. *)
Definition timing_lines (t : Q) (ts : list Q) : list Line :=
  [ Text (nl +:+ "TIMING STATISTICS:");
    Num "Average response time" (mean (t :: ts)) "s";
    Num "Minimum response time" (list_min t ts) "s";
    Num "Maximum response time" (list_max t ts) "s" ] ++
  (match ts with
   | [] => []
   | _ :: _ => [Num "Standard deviation" (stdev (t :: ts)) "s"]
   end) ++
  [ Num "50th percentile (median)" (percentile (t :: ts) 0.50) "s";
    Num "90th percentile" (percentile (t :: ts) 0.90) "s";
    Num "95th percentile" (percentile (t :: ts) 0.95) "s";
    Num "99th percentile" (percentile (t :: ts) 0.99) "s" ].

(** The value [send_request] hands to [requests.post] for a record: the
    serialised text of an object, anything else as it is.  Serialising may
    raise. *)
Definition serialise (data : Json) : PyResult Json :=
  match data with
  | JDict _ =>
      result_map JStr (if orjson then orjson_dumps data else json_dumps data)
  | _ => Ok data
  end.

(** The call of [requests.post] that carries [json_data]. *)
Definition call_with (w : World) (json_data : Json) : PostCall :=
  {| post_url := url w; post_data := json_data;
     post_content_type := "application/json"; post_timeout := timeout w |}.

(** The calls of [requests.post] made for a record: one when it serialises,
    none when serialising raises. *)
Definition calls_for (w : World) (data : Json) : list PostCall :=
  match serialise data with
  | Ok json_data => [call_with w json_data]
  | Err _ => []
  end.

(** The message of the [HTTPError] raised for a 4xx or 5xx response. *)
Definition http_error_message (r : HttpResponse) : string :=
  str_of_Z (status_code r)
  +:+ (if status_code r <? 500 then " Client Error: " else " Server Error: ")
  +:+ reason r +:+ " for url: " +:+ response_url r.

Definition is_error_status (code : Z) : bool :=
  (400 <=? code) && (code <? 600).

(** The three kinds of input line. *)
Inductive LineKind : Type :=
  | Blank
  | Malformed (e : PyExc)
  | WellFormed (record : Json).

Definition line_kind (line : string) : LineKind :=
  match strip line with
  | EmptyString => Blank
  | String _ _ =>
      match loads (strip line) with
      | Ok record => WellFormed record
      | Err e => Malformed e
      end
  end.

(** The records of the well-formed lines, in file order. *)
Definition well_formed_records (lines : list string) : list Json :=
  omap (fun line => match line_kind line with
                    | WellFormed record => Some record
                    | _ => None
                    end) lines.

Definition invalid_json_message (line_num : Z) (e : PyExc) : string :=
  "ERROR: Invalid JSON on line " +:+ str_of_Z line_num +:+ ": " +:+ exc_str e.

(** The messages logged for the malformed lines, numbered from [line_num]. *)
Fixpoint invalid_json_messages (lines : list string) (line_num : Z)
    : list string :=
  match lines with
  | [] => []
  | line :: rest =>
      match line_kind line with
      | Malformed e => [invalid_json_message line_num e]
      | _ => []
      end ++ invalid_json_messages rest (line_num + 1)
  end.

(** A parse failure is a [JSONDecodeError]. *)
Definition only_decode_errors `{ClassHierarchy} (lines : list string) : Prop :=
  forall line e,
    line ∈ lines -> line_kind line = Malformed e ->
    isinstance e JSONDecodeError = true.

(** A line at which the reading loop stops: its parse raises an exception
    that [except json.JSONDecodeError] does not catch. *)
Definition stops_reading `{ClassHierarchy} (line : string) : bool :=
  match line_kind line with
  | Malformed e => negb (isinstance e JSONDecodeError)
  | _ => false
  end.

(** The lines the reading loop deals with: those before the first line
    that stops it. *)
Fixpoint lines_handled `{ClassHierarchy} (lines : list string) : list string :=
  match lines with
  | [] => []
  | line :: rest =>
      if stops_reading line then [] else line :: lines_handled rest
  end.

(** The reading of [file_path] is cut short: by a line that stops the loop,
    or by an error of the iteration over the file. *)
Definition cut_short `{ClassHierarchy} (file_path : string)
    (lines : list string) : Prop :=
  existsb stops_reading lines = true \/ is_Some (read_error file_path).

End Report.

(** What a stretch of the run did to the outside: the configuration is
    untouched, [calls] were posted, and the printed output grew by lines
    that include every message of [msgs]. *)
Definition extends (calls : list PostCall) (msgs : list string)
    (w w' : World) : Prop :=
  url w' = url w /\ timeout w' = timeout w /\
  max_workers w' = max_workers w /\
  posts w' = posts w ++ calls /\
  exists more, out w' = out w ++ more /\
               Forall (fun msg => Text msg ∈ more) msgs.

(** A stretch that posts nothing. *)
Definition quiet : World -> World -> Prop := extends [] [].

Definition quietly {A} (m : M World A) : Prop :=
  forall w, quiet w (snd (m w)).

End PerfSpec.

(** ** Concrete collaborators, to run the definitions on *)

Module Demo.
Import Server.

(** The double quote, and a quoted word. *)
Definition dq : string := String "034"%char EmptyString.
Definition quoted (s : string) : string := dq +:+ s +:+ dq.

(** The result [{"entities": []}] and the request [{"NAME_FULL": "John Smith"}]. *)
Definition no_entities : string := "{" +:+ quoted "entities" +:+ ": []}".
Definition john_smith : string :=
  "{" +:+ quoted "NAME_FULL" +:+ ": " +:+ quoted "John Smith" +:+ "}".

(** An engine that finds nothing, and rejects an empty attribute string. *)
Definition quiet_engine : SzEngine :=
  {| search_by_attributes := fun attributes _ _ =>
       if truthy attributes then Ok no_entities
       else Err (mkExc SzBadInputError "empty attributes") |}.

(** An engine whose every search fails with the given exception. *)
Definition failing_engine (e : PyExc) : SzEngine :=
  {| search_by_attributes := fun _ _ _ => Err e |}.

(** A reader of plain decimal numerals, standing for [int] on strings. *)
Fixpoint read_digits (s : string) (acc : Z) : option Z :=
  match s with
  | EmptyString => Some acc
  | String c s' =>
      let n := Z.of_nat (nat_of_ascii c) in
      if (48 <=? n) && (n <=? 57) then read_digits s' (10 * acc + (n - 48))
      else None
  end.

Definition read_int (s : string) : PyResult Z :=
  let bad := Err (mkExc ValueError ("invalid literal for int() with base 10: '"
                                      +:+ s +:+ "'")) in
  match s with
  | EmptyString => bad
  | String _ _ =>
      match read_digits s 0 with
      | Some z => Ok z
      | None => bad
      end
  end.

Definition sdk : Sdk :=
  {| SZ_SEARCH_BY_ATTRIBUTES_DEFAULT_FLAGS := 0;
     SzFactory := unit;
     SzAbstractFactoryCore := fun _ _ => Ok tt;
     create_engine := fun _ => Ok quiet_engine;
     py_int := read_int;
     app_run := fun _ _ _ => Ok tt |}.

(** A freshly started process with the given environment. *)
Definition fresh (env : gmap string string) : World :=
  {| environ := env; stdout := []; stderr := []; logged := [];
     sz_engine := None; executor := None; engine_calls := [];
     listener := None |}.

(** A process after a successful initialisation around [engine]. *)
Definition serving (engine : SzEngine) : World :=
  {| environ := ∅; stdout := []; stderr := []; logged := [];
     sz_engine := Some engine; executor := Some {| max_workers := None |};
     engine_calls := []; listener := None |}.

End Demo.

Module PerfDemo.
Import PerfTest.

(** A reader that takes a line in braces for an (empty) object and rejects
    anything else, standing for [json.loads]. *)
Fixpoint ends_with_brace (s : string) : bool :=
  match s with
  | EmptyString => false
  | String c EmptyString => Ascii.eqb c "}"%char
  | String _ s' => ends_with_brace s'
  end.

Definition read_object (line : string) : PyResult Json :=
  match line with
  | String "{"%char rest =>
      if ends_with_brace rest then Ok (JDict [])
      else Err (mkExc JSONDecodeError "Expecting property name")
  | _ => Err (mkExc JSONDecodeError "Expecting value")
  end.

(** Removal of leading and trailing spaces, standing for [str.strip]. *)
Fixpoint strip_left (s : string) : string :=
  match s with
  | String " "%char s' => strip_left s'
  | _ => s
  end.

Fixpoint strip_right (s : string) : string :=
  match s with
  | EmptyString => EmptyString
  | String c s' =>
      match strip_right s' with
      | EmptyString => if Ascii.eqb c " "%char then EmptyString
                       else String c EmptyString
      | r => String c r
      end
  end.

(** A client with the given JSON reader and writer, whose n-th request
    gets [answers n], whose files are [files] and are read to the end, and
    whose clock advances a tenth of a second per reading.  It has no
    [orjson]: the standard [json] module parses and serialises. *)
Definition client_of (reader : string -> PyResult Json)
    (writer : Json -> PyResult string)
    (answers : nat -> PyResult HttpResponse)
    (files : string -> PyResult (list string)) : Client :=
  {| orjson := false;
     json_loads := reader;
     orjson_loads := reader;
     json_dumps := writer;
     orjson_dumps := writer;
     strip := fun s => strip_right (strip_left s);
     open_file := files;
     read_error := fun _ => None;
     requests_post := fun n _ => answers n;
     clock := fun n => (inject_Z (Z.of_nat n) / 10)%Q;
     stdev := fun _ => 0%Q |}.

(** The usual client: the reader above, and a writer that gives the text
    of the empty object, the only record that reader produces. *)
Definition client (answers : nat -> PyResult HttpResponse)
    (files : string -> PyResult (list string)) : Client :=
  client_of read_object (fun _ => Ok "{}") answers files.

Fixpoint all_digits (s : string) : bool :=
  match s with
  | EmptyString => true
  | String c s' =>
      (48 <=? nat_of_ascii c)%nat && (nat_of_ascii c <=? 57)%nat
      && all_digits s'
  end.

(** A reader that, like [json.loads], refuses an integer literal of more
    than 4300 digits with a plain [ValueError], not a [JSONDecodeError].
    The message is abbreviated. *)
Definition read_limited (line : string) : PyResult Json :=
  if all_digits line && (4300 <? String.length line)%nat then
    Err (mkExc ValueError
           "Exceeds the limit (4300 digits) for integer string conversion")
  else read_object line.

(** [shallower n j]: no value of [j] lies under [n] or more containers. *)
Fixpoint shallower (n : nat) (j : Json) : bool :=
  match n with
  | O => false
  | S n' =>
      match j with
      | JList l => forallb (shallower n') l
      | JDict items => forallb (fun item => shallower n' (snd item)) items
      | _ => true
      end
  end.

(** An object holding an object holding an object, [n] times over. *)
Fixpoint nested (n : nat) : Json :=
  match n with
  | O => JDict []
  | S n' => JDict [("a", nested n')]
  end.

(** A writer that, like [orjson.dumps], gives up with a [TypeError] on an
    object nested too deep; what it accepts it writes as the usual client
    does. *)
Definition write_shallow (data : Json) : PyResult string :=
  if shallower 255 data then Ok "{}"
  else Err (mkExc TypeError "Recursion limit reached").

Definition answer (code : Z) (why : string) : PyResult HttpResponse :=
  Ok {| status_code := code; reason := why;
        response_url := "http://localhost:5000/search";
        content := encode Demo.no_entities |}.

Definition no_files (path : string) : PyResult (list string) :=
  Err (mkExc FileNotFoundError
         ("[Errno 2] No such file or directory: '" +:+ path +:+ "'")).

Definition one_file (lines : list string) (path : string)
    : PyResult (list string) :=
  if String.eqb path "records.jsonl" then Ok lines else no_files path.

(** A new [PerformanceTest("http://localhost:5000/search", 2, 10)]. *)
Definition new_test : World :=
  {| url := "http://localhost:5000/search"; max_workers := 2; timeout := 10;
     request_times := []; error_count := 0; total_requests := 0;
     start_time := None; records_processed := 0; ticks := 0; posts := [];
     out := [] |}.

(** A test that started at time 0 and holds the given success latencies. *)
Definition finished_test (times : list Q) : World :=
  {| url := "http://localhost:5000/search"; max_workers := 2; timeout := 10;
     request_times := times; error_count := 0;
     total_requests := Z.of_nat (length times);
     start_time := Some 0%Q; records_processed := Z.of_nat (length times);
     ticks := 20; posts := []; out := [] |}.

End PerfDemo.

(** ** The load generator's constructor and entry point *)

Module PerfMain.
Import PerfTest.

(** What [__init__] and [main] take from the operating system: the
    environment, [os.path.isfile], and the builtin [int] on strings. *)
Class Os : Type :=
  { os_environ : gmap string string;
    isfile : string -> bool;
    int_of_str : string -> PyResult Z }.

(** [int(os.environ.get('SENZING_THREADS_PER_PROCESS', 10))] *)
Definition threads_per_process `{Os} : PyResult Z :=
  match os_environ !! "SENZING_THREADS_PER_PROCESS" with
  | Some s => int_of_str s
  | None => Ok 10
  end.

(** [PerformanceTest.__init__(url, max_workers, timeout)]; [max_workers] may
    be [None].  The object's fields are (re)initialised; the clock, the
    network log and the output are the surrounding process's. *)
Definition init `{Os} (target : string) (workers : option Z) (seconds : Z)
    : M World unit :=
  resolved <- lift (match workers with
                    | Some n => if n =? 0 then threads_per_process else Ok n
                    | None => threads_per_process
                    end) ;;
  modify (fun w =>
    {| url := target; max_workers := resolved; timeout := seconds;
       request_times := []; error_count := 0; total_requests := 0;
       start_time := None; records_processed := records_processed w;
       ticks := ticks w; posts := posts w; out := out w |}).

(** The namespace [parser.parse_args()] returns. *)
Record Args : Type :=
  { arg_file_path : string;
    arg_url : string;
    arg_workers : Z;
    arg_timeout : Z;
    arg_report_interval : Z }.

(** [main()], from the parsed arguments on. *)
Definition main `{ClassHierarchy} `{Client} `{Os} (args : Args)
    : M World unit :=
  (if negb (isfile (arg_file_path args)) then
     print (Text ("ERROR: File does not exist: " +:+ arg_file_path args)) ;;
     sys_exit 1
   else ret tt) ;;
  init (arg_url args) (Some (arg_workers args)) (arg_timeout args) ;;
  success <- process_file (arg_file_path args) (arg_report_interval args) ;;
  (if negb success then sys_exit 1 else ret tt) ;;
  print (Text (nl +:+ "Performance test completed successfully!")).

(** *** Bookkeeping of the collected results *)

(** The latencies of the successful results, in order. *)
Fixpoint success_times (futures : list (Future RequestResult)) : list Q :=
  match futures with
  | [] => []
  | Ret (Success t _ _) :: rest => t :: success_times rest
  | _ :: rest => success_times rest
  end.

(** How many futures hold a result, a failed result, or an exception. *)
Definition holds_result (f : Future RequestResult) : bool :=
  match f with
  | Ret _ => true
  | _ => false
  end.

Definition holds_failure (f : Future RequestResult) : bool :=
  match f with
  | Ret (Failure _ _) => true
  | _ => false
  end.

Definition holds_exception (f : Future RequestResult) : bool :=
  match f with
  | Raise _ => true
  | _ => false
  end.

Definition count (test : Future RequestResult -> bool)
    (futures : list (Future RequestResult)) : Z :=
  Z.of_nat (length (filter (fun f => test f = true) futures)).

(** No future holds a [SystemExit]. *)
Definition no_exit (f : Future RequestResult) : Prop :=
  match f with
  | SysExit _ => False
  | _ => True
  end.

(** The counters of the [PerformanceTest] object and of [process_file] are
    the same in two states. *)
Definition same_counts (w w' : World) : Prop :=
  request_times w' = request_times w /\
  error_count w' = error_count w /\
  total_requests w' = total_requests w /\
  start_time w' = start_time w /\
  records_processed w' = records_processed w.

Definition keeps_counts {A} (m : M World A) : Prop :=
  forall w, same_counts w (snd (m w)).

End PerfMain.

(** * Properties *)

Module ServerFacts.
Import Server Spec.

Section Classifier.
Context `{ClassHierarchy}.

Lemma scan_items_find (e : PyExc) (items : list (ExcClass * Z)) :
  scan_items e items =
  snd <$> List.find (fun kv => isinstance e (fst kv)) items.
Proof.
  induction items as [|[k code] rest IH]; simpl; [reflexivity|].
  destruct (isinstance e k); [reflexivity | exact IH].
Qed.

(** C1. For every raised failure [e], [exception_to_code e] is one of
    400, 403, 404, 408, 409, 422, 500, 502, 503, 504, and it is computed as
    the specification says: the code the static table gives the exact type
    of [e] when it is a key; otherwise the code of the first key, in the
    table's order, that [e] is an instance of; otherwise 500. *)
Theorem exception_to_code_classifies (e : PyExc) :
  exception_to_code e ∈ http_codes /\
  exception_to_code e = classify e.
Proof.
  unfold exception_to_code, classify.
  destruct e as [c msg]; destruct c; simpl;
    try (split; [unfold http_codes; set_solver | reflexivity]).
  set (e := mkExc (OtherClass qualname) msg).
  repeat (destruct (isinstance e _);
          [split; [unfold http_codes; set_solver | reflexivity] |]).
  split; [unfold http_codes; set_solver | reflexivity].
Qed.

End Classifier.

(** The classifier on the running hierarchy. *)
Example plain_exception_is_500 :
  @exception_to_code python_hierarchy (mkExc Exception_ "Test error") = 500.
Proof. reflexivity. Qed.

Example not_found_is_404 :
  @exception_to_code python_hierarchy (mkExc SzNotFoundError "no entity") = 404.
Proof. reflexivity. Qed.

Example unicode_error_is_400 :
  @exception_to_code python_hierarchy (mkExc UnicodeDecodeError "bad byte") = 400.
Proof. reflexivity. Qed.

(** The scan order decides for a class that is not a key: a subclass of
    [SzNotFoundError] is met first as an instance of [SzBadInputError]. *)
Example subclass_takes_first_match :
  let h := {| mro := fun c =>
                if decide (c = OtherClass "app.MissingEntity")
                then c :: python_mro SzNotFoundError
                else python_mro c |} in
  @exception_to_code h (mkExc (OtherClass "app.MissingEntity") "gone") = 400.
Proof. reflexivity. Qed.

Section Endpoint.
Context `{ClassHierarchy} `{Sdk}.

Lemma py_or_profile (o : option string) :
  py_or o "SEARCH" =
  match o with
  | None => "SEARCH"
  | Some EmptyString => "SEARCH"
  | Some p => p
  end.
Proof. destruct o as [[|c p]|]; reflexivity. Qed.

(** What [do_search] does once the body has decoded and the globals are
    set: one engine call, and the view value built from its result. *)
Lemma do_search_run (request : Request) (w : World) (pool : Executor)
    (engine : SzEngine) :
  utf8_valid (data request) = true ->
  executor w = Some pool ->
  sz_engine w = Some engine ->
  do_search request w =
  match search_by_attributes engine (call_attributes (forwarded request))
          (call_flags (forwarded request))
          (call_search_profile (forwarded request)) with
  | Ok r => (Ret (RvStr r), after_call w (forwarded request) [])
  | Err e =>
      (Ret (RvWithStatus (jsonify (JDict [("error", JStr (exc_str e))]))
              (exception_to_code e)),
       after_call w (forwarded request)
         [exc_str e +:+ " [" +:+ string_of_list_byte (data request) +:+ "]"])
  end.
Proof.
  intros Hutf Hpool Hengine.
  unfold do_search, decode. rewrite Hutf.
  unfold bind at 1. simpl.
  replace (if truthy_opt (args_get (args request) "flags")
           then SZ_SEARCH_BY_ATTRIBUTES_DEFAULT_FLAGS
           else SZ_SEARCH_BY_ATTRIBUTES_DEFAULT_FLAGS)
    with SZ_SEARCH_BY_ATTRIBUTES_DEFAULT_FLAGS
    by (destruct (truthy_opt _); reflexivity).
  unfold try_except, bind, get, submit, result, process_search, call_search.
  rewrite Hpool, Hengine. simpl.
  unfold try_except, bind, record_call, print_stderr, modify, lift. simpl.
  rewrite py_or_profile.
  destruct (search_by_attributes engine _ _ _) as [r|e]; simpl.
  - unfold after_call. simpl. rewrite app_nil_r. reflexivity.
  - reflexivity.
Qed.

(** Every failure of the dispatched search is answered with the classified
    status and a JSON body holding its message. *)
Lemma task_failure_is_answered (request : Request) (w : World)
    (pool : Executor) (engine : SzEngine) (e : PyExc) :
  utf8_valid (data request) = true ->
  executor w = Some pool ->
  sz_engine w = Some engine ->
  search_by_attributes engine (call_attributes (forwarded request))
    (call_flags (forwarded request))
    (call_search_profile (forwarded request)) = Err e ->
  fst (serve_search request w) =
  Responded {| status := exception_to_code e;
               content_type := "application/json";
               body := BJson (JDict [("error", JStr (exc_str e))]) |}.
Proof.
  intros Hutf Hpool Hengine Hcall.
  unfold serve_search.
  rewrite (do_search_run request w pool engine Hutf Hpool Hengine), Hcall.
  reflexivity.
Qed.

(** A successful search is answered 200 with the result as body; the view
    returns a bare [str], so the response carries the framework's default
    content type. *)
Lemma success_is_answered (request : Request) (w : World)
    (pool : Executor) (engine : SzEngine) (r : string) :
  utf8_valid (data request) = true ->
  executor w = Some pool ->
  sz_engine w = Some engine ->
  search_by_attributes engine (call_attributes (forwarded request))
    (call_flags (forwarded request))
    (call_search_profile (forwarded request)) = Ok r ->
  fst (serve_search request w) =
  Responded {| status := 200; content_type := "text/html; charset=utf-8";
               body := BText r |}.
Proof.
  intros Hutf Hpool Hengine Hcall.
  unfold serve_search.
  rewrite (do_search_run request w pool engine Hutf Hpool Hengine), Hcall.
  reflexivity.
Qed.

(** C5. For every POST /search request (body valid UTF-8, process
    initialised), the engine's search is invoked once, with exactly the
    decoded body, with the single default flags value whatever the [flags]
    query parameter holds, and with the [profile] query value, ["SEARCH"]
    when that parameter is absent or empty. *)
Theorem do_search_forwards_request (request : Request) (w : World)
    (pool : Executor) (engine : SzEngine) :
  utf8_valid (data request) = true ->
  executor w = Some pool ->
  sz_engine w = Some engine ->
  engine_calls (snd (do_search request w)) =
  engine_calls w ++
    [ {| call_attributes := string_of_list_byte (data request);
         call_flags := SZ_SEARCH_BY_ATTRIBUTES_DEFAULT_FLAGS;
         call_search_profile :=
           match args_get (args request) "profile" with
           | None => "SEARCH"
           | Some EmptyString => "SEARCH"
           | Some p => p
           end |} ].
Proof.
  intros Hutf Hpool Hengine.
  rewrite (do_search_run request w pool engine Hutf Hpool Hengine).
  destruct (search_by_attributes engine _ _ _); reflexivity.
Qed.

End Endpoint.

(** A search the engine rejects as "not found" is answered 404 with the
    message in a JSON body. *)
Example not_found_is_answered :
  fst (@serve_search python_hierarchy Demo.sdk
         {| data := encode Demo.john_smith; args := [("profile", "MINIMAL")] |}
         (Demo.serving (Demo.failing_engine (mkExc SzNotFoundError "no entity")))) =
  Responded {| status := 404; content_type := "application/json";
               body := BJson (JDict [("error", JStr "no entity")]) |}.
Proof. reflexivity. Qed.

Lemma do_search_forwards_request_witness :
  engine_calls
    (snd (@do_search python_hierarchy Demo.sdk
            {| data := encode Demo.john_smith;
               args := [("flags", "A|B"); ("profile", "")] |}
            (Demo.serving Demo.quiet_engine))) =
  [ {| call_attributes := Demo.john_smith; call_flags := 0;
       call_search_profile := "SEARCH" |} ].
Proof.
  apply (@do_search_forwards_request python_hierarchy Demo.sdk
           {| data := encode Demo.john_smith;
              args := [("flags", "A|B"); ("profile", "")] |}
           (Demo.serving Demo.quiet_engine)
           {| max_workers := None |} Demo.quiet_engine); reflexivity.
Defined.

(** C3, at a body that is not valid UTF-8 (the single byte 0xFF):
    [request.data.decode()] stands before the [try], so the
    [UnicodeDecodeError] leaves [do_search]; no JSON error body is built and
    the classifier (which would answer 400) is never consulted. *)
Theorem undecodable_body_escapes :
  @serve_search python_hierarchy Demo.sdk
    {| data := [Byte.xff]; args := [] |} (Demo.serving Demo.quiet_engine) =
  (Escaped (mkExc UnicodeDecodeError "'utf-8' codec can't decode byte"),
   Demo.serving Demo.quiet_engine) /\
  @exception_to_code python_hierarchy
    (mkExc UnicodeDecodeError "'utf-8' codec can't decode byte") = 400.
Proof. split; reflexivity. Qed.

(** C4, at the request [{"NAME_FULL": "John Smith"}] answered
    [{"entities": []}] by the engine: the response has status 200 and the
    result as its body, but its content type is text/html, not
    application/json. *)
Theorem successful_search_content_type :
  let served :=
    fst (@serve_search python_hierarchy Demo.sdk
           {| data := encode Demo.john_smith; args := [] |}
           (Demo.serving Demo.quiet_engine)) in
  served = Responded {| status := 200;
                        content_type := "text/html; charset=utf-8";
                        body := BText Demo.no_entities |} /\
  served <> Responded {| status := 200; content_type := "application/json";
                         body := BText Demo.no_entities |}.
Proof. split; [reflexivity | discriminate]. Qed.

Section Startup.
Context `{Sdk}.

(** After a successful initialisation both globals are set. *)
Lemma module_init_sets_globals (w w' : World) :
  module_init w = (Ret tt, w') ->
  is_Some (sz_engine w') /\ is_Some (executor w').
Proof.
  unfold module_init, try_except, bind, getenv, print_stderr, sys_exit,
    set_sz_engine, set_executor, log, modify, lift, ret, raise.
  destruct (truthy_opt (environ w !! "SENZING_ENGINE_CONFIGURATION_JSON"));
    simpl; [|discriminate].
  destruct (SzAbstractFactoryCore _ _) as [factory|e]; simpl; [|discriminate].
  destruct (create_engine factory) as [engine|e]; simpl; [|discriminate].
  destruct (environ w !! "SENZING_THREADS_PER_PROCESS") as [threads|]; simpl.
  - destruct (py_int threads) as [n|e]; simpl; [|discriminate].
    destruct (ThreadPoolExecutor _) as [pool|e]; simpl; [|discriminate].
    intros [= <-]. simpl. split; eexists; reflexivity.
  - intros [= <-]. simpl. split; eexists; reflexivity.
Qed.

(** The pool is sized from SENZING_THREADS_PER_PROCESS: the library default
    when the variable is unset or reads as zero, its value otherwise. *)
Lemma pool_size_from_environment (w w' : World) :
  module_init w = (Ret tt, w') ->
  executor w' =
  Some {| max_workers :=
            match environ w !! "SENZING_THREADS_PER_PROCESS" with
            | None => None
            | Some s =>
                match py_int s with
                | Ok n => if n =? 0 then None else Some n
                | Err _ => None
                end
            end |}.
Proof.
  unfold module_init, try_except, bind, getenv, print_stderr, sys_exit,
    set_sz_engine, set_executor, log, modify, lift, ret, raise.
  destruct (truthy_opt (environ w !! "SENZING_ENGINE_CONFIGURATION_JSON"));
    simpl; [|discriminate].
  destruct (SzAbstractFactoryCore _ _) as [factory|e]; simpl; [|discriminate].
  destruct (create_engine factory) as [engine|e]; simpl; [|discriminate].
  destruct (environ w !! "SENZING_THREADS_PER_PROCESS") as [threads|]; simpl.
  - destruct (py_int threads) as [n|e]; simpl; [|discriminate].
    unfold ThreadPoolExecutor.
    destruct (n =? 0); simpl; [intros [= <-]; reflexivity|].
    destruct (n <=? 0); simpl; [discriminate|].
    intros [= <-]. reflexivity.
  - intros [= <-]. reflexivity.
Qed.

(** C6. If the configuration setting is absent or empty at start-up, the
    process prints a diagnostic naming the setting on its error stream and
    terminates with a non-zero exit status; nothing else changes, in
    particular no listener is bound. *)
Theorem missing_configuration_is_fatal (w : World) :
  environ w !! "SENZING_ENGINE_CONFIGURATION_JSON" = None \/
  environ w !! "SENZING_ENGINE_CONFIGURATION_JSON" = Some EmptyString ->
  script w =
    (SysExit (-1),
     {| environ := environ w; stdout := stdout w;
        stderr := stderr w ++ [MISSING_CONFIGURATION];
        logged := logged w; sz_engine := sz_engine w; executor := executor w;
        engine_calls := engine_calls w; listener := listener w |}) /\
  exit_status (-1) <> 0 /\
  exists before after : string,
    MISSING_CONFIGURATION =
    before +:+ "SENZING_ENGINE_CONFIGURATION_JSON" +:+ after.
Proof.
  intros Hconf. split; [|split].
  - unfold script, module_init, try_except, bind, getenv.
    destruct Hconf as [-> | ->]; reflexivity.
  - unfold exit_status. discriminate.
  - exists "The environment variable ".
    eexists. reflexivity.
Qed.

End Startup.

Lemma missing_configuration_is_fatal_witness :
  @script Demo.sdk (Demo.fresh {[ "PORT" := "8080" ]}) =
    (SysExit (-1),
     {| environ := {[ "PORT" := "8080" ]}; stdout := [];
        stderr := [MISSING_CONFIGURATION];
        logged := []; sz_engine := None; executor := None;
        engine_calls := []; listener := None |}) /\
  exit_status (-1) <> 0 /\
  exists before after : string,
    MISSING_CONFIGURATION =
    before +:+ "SENZING_ENGINE_CONFIGURATION_JSON" +:+ after.
Proof.
  exact (@missing_configuration_is_fatal Demo.sdk
           (Demo.fresh {[ "PORT" := "8080" ]}) (or_introl eq_refl)).
Defined.

End ServerFacts.

Module PerfFacts.
Import PerfTest PerfSpec.

(** *** Sorting and selection *)

Lemma insert_sorted_length (x : Q) (l : list Q) :
  length (insert_sorted x l) = S (length l).
Proof.
  induction l as [|y l IH]; simpl; [reflexivity|].
  destruct (Qle_bool x y); simpl; [reflexivity | by rewrite IH].
Qed.

Lemma sorted_length (l : list Q) : length (sorted l) = length l.
Proof.
  induction l as [|x l IH]; simpl; [reflexivity|].
  by rewrite insert_sorted_length, IH.
Qed.

Lemma insert_sorted_perm (x : Q) (l : list Q) : insert_sorted x l ≡ₚ x :: l.
Proof.
  induction l as [|y l IH]; simpl; [reflexivity|].
  destruct (Qle_bool x y); [reflexivity|].
  rewrite IH. apply Permutation_swap.
Qed.

Lemma sorted_perm (l : list Q) : sorted l ≡ₚ l.
Proof.
  induction l as [|x l IH]; simpl; [reflexivity|].
  by rewrite insert_sorted_perm, IH.
Qed.

Lemma insert_sorted_ascending (x : Q) (l : list Q) :
  ascending l -> ascending (insert_sorted x l).
Proof.
  induction l as [|y l IH]; simpl; intros Hl.
  - split; [constructor | exact I].
  - destruct Hl as [Hy Hl].
    destruct (Qle_bool x y) eqn:Hxy; simpl.
    + apply Qle_bool_iff in Hxy. split; [|split; assumption].
      constructor; [assumption|].
      eapply Forall_impl; [exact Hy|].
      intros z Hz. simpl in Hz. eapply Qle_trans; eassumption.
    + assert (y <= x)%Q as Hyx.
      { destruct (Qlt_le_dec y x) as [Hlt|Hle]; [by apply Qlt_le_weak|].
        apply Qle_bool_iff in Hle. congruence. }
      split; [|by apply IH].
      rewrite insert_sorted_perm. by constructor.
Qed.

Lemma sorted_ascending (l : list Q) : ascending (sorted l).
Proof.
  induction l as [|x l IH]; simpl; [exact I|].
  by apply insert_sorted_ascending.
Qed.

Lemma percentile_index_eq (n : nat) (num : Z) (den : positive) :
  percentile_index n (num # den) = (Z.of_nat n * num) / Z.pos den.
Proof. unfold percentile_index, Qfloor, Qmult, inject_Z. simpl. reflexivity. Qed.

Lemma percentile_index_bounds (n : nat) (p : Q) :
  (0 < n)%nat ->
  p ∈ report_percentiles ->
  0 <= percentile_index n p <= Z.of_nat n - 1.
Proof.
  intros Hpos Hp. unfold report_percentiles in Hp.
  repeat (apply elem_of_cons in Hp as [-> | Hp]);
    [ | | | | by apply elem_of_nil in Hp ];
    rewrite percentile_index_eq;
    (split; [apply Z.div_pos; lia | ]);
    apply Z.lt_le_pred, Z.div_lt_upper_bound; lia.
Qed.

Lemma nonempty_length {A} (l : list A) : l <> [] -> (0 < length l)%nat.
Proof. destruct l; [congruence | simpl; lia]. Qed.

Lemma percentile_lookup (times : list Q) (p : Q) :
  times <> [] ->
  p ∈ report_percentiles ->
  sorted times !! Z.to_nat (percentile_index (length (sorted times)) p) =
  Some (percentile times p).
Proof.
  intros Hne Hp. rewrite sorted_length.
  pose proof (percentile_index_bounds (length times) p
                (nonempty_length _ Hne) Hp) as Hrange.
  assert (is_Some (sorted times !!
                     Z.to_nat (percentile_index (length times) p))) as [v Hv].
  { apply lookup_lt_is_Some. rewrite sorted_length. lia. }
  rewrite Hv. f_equal. unfold percentile.
  change (Qfloor (inject_Z (Z.of_nat (length times)) * p))
    with (percentile_index (length times) p).
  symmetry. by apply nth_lookup_Some.
Qed.

(** C10. For every non-empty list of success latencies, of length n, each
    percentile index floor(n * p), p among 0.50, 0.90, 0.95 and 0.99, lies
    between 0 and n - 1, so the selection on the sorted list finds an
    element. *)
Theorem percentile_index_in_range (times : list Q) (p : Q) :
  times <> [] ->
  p ∈ report_percentiles ->
  let n := length (sorted times) in
  n = length times /\
  0 <= percentile_index n p <= Z.of_nat n - 1 /\
  is_Some (sorted times !! Z.to_nat (percentile_index n p)).
Proof.
  intros Hne Hp n.
  assert (n = length times) as Hn by apply sorted_length.
  split; [exact Hn|]. split.
  - apply percentile_index_bounds; [|exact Hp].
    rewrite Hn. by apply nonempty_length.
  - subst n. rewrite (percentile_lookup times p Hne Hp). by eexists.
Qed.

Section FinalReport.
Context `{Client}.

Lemma print_percentile_found (label : string) (l : list Q) (idx : Z) (v : Q)
    (w : World) :
  l !! Z.to_nat idx = Some v ->
  print_percentile label l idx w =
  (Ret tt, set_out (out w ++ [Num label v "s"]) w).
Proof.
  intros Hv. unfold print_percentile, list_index, bind. rewrite Hv. reflexivity.
Qed.

Lemma final_report_prints (processed : Z) (w : World) (t0 t : Q)
    (ts : list Q) :
  start_time w = Some t0 ->
  request_times w = t :: ts ->
  let total_time := (clock (ticks w) - t0)%Q in
  Qeq_bool total_time 0 = false ->
  print_final_report processed w =
    (Ret tt,
     set_out (out w ++ summary_lines processed w total_time ++ timing_lines t ts)
       (set_ticks (S (ticks w)) w)).
Proof.
  intros Hstart Htimes total_time Hnz.
  assert (forall p, p ∈ report_percentiles ->
            sorted (t :: ts) !!
              Z.to_nat (percentile_index (length (sorted (t :: ts))) p) =
            Some (percentile (t :: ts) p)) as Hsel
    by (intros p Hp; by apply percentile_lookup).
  assert (Hsel50 := Hsel 0.50%Q ltac:(unfold report_percentiles; set_solver)).
  assert (Hsel90 := Hsel 0.90%Q ltac:(unfold report_percentiles; set_solver)).
  assert (Hsel95 := Hsel 0.95%Q ltac:(unfold report_percentiles; set_solver)).
  assert (Hsel99 := Hsel 0.99%Q ltac:(unfold report_percentiles; set_solver)).
  destruct w as [u mw to rt ec tr st rp tk ps o].
  simpl in Hstart, Htimes, total_time, Hnz. subst st rt.
  cbv [print_final_report since_start bind time_time get print modify ret raise
       set_out set_ticks url max_workers timeout request_times error_count
       total_requests start_time records_processed ticks posts out].
  fold total_time. rewrite Hnz.
  unfold summary_lines, timing_lines.
  destruct ts as [|t' ts'].
  - change ((1 <? length [t])%nat) with false.
    cbv beta iota.
    rewrite (print_percentile_found _ _ _ _ _ Hsel50).
    rewrite (print_percentile_found _ _ _ _ _ Hsel90).
    rewrite (print_percentile_found _ _ _ _ _ Hsel95).
    rewrite (print_percentile_found _ _ _ _ _ Hsel99).
    cbv [set_out url max_workers timeout request_times error_count
         total_requests start_time records_processed ticks posts out].
    repeat rewrite <- app_assoc.
    destruct (0 <? tr); reflexivity.
  - change ((1 <? length (t :: t' :: ts'))%nat) with true.
    cbv beta iota.
    rewrite (print_percentile_found _ _ _ _ _ Hsel50).
    rewrite (print_percentile_found _ _ _ _ _ Hsel90).
    rewrite (print_percentile_found _ _ _ _ _ Hsel95).
    rewrite (print_percentile_found _ _ _ _ _ Hsel99).
    cbv [set_out url max_workers timeout request_times error_count
         total_requests start_time records_processed ticks posts out].
    repeat rewrite <- app_assoc.
    destruct (0 <? tr); reflexivity.
Qed.
(** C7, amended. When the final report is printed with at least one success
    latency (start time set, non-zero total time), it completes and prints,
    after the summary, the mean, the minimum and the maximum of the success
    latencies, their standard deviation when there are at least two of
    them, and the 50th, 90th, 95th and 99th percentiles, the p-th being the
    element at index floor(n * p) of the sorted latencies; for
    [0.1, 0.2, 0.3, 0.4] the 50th percentile is the element at index 2,
    0.3. *)
Theorem final_report_statistics (processed : Z) (w : World) (t0 t : Q)
    (ts : list Q) :
  start_time w = Some t0 ->
  request_times w = t :: ts ->
  let total_time := (clock (ticks w) - t0)%Q in
  Qeq_bool total_time 0 = false ->
  print_final_report processed w =
    (Ret tt,
     set_out (out w ++ summary_lines processed w total_time ++ timing_lines t ts)
       (set_ticks (S (ticks w)) w)) /\
  (forall p, p ∈ report_percentiles ->
     sorted (t :: ts) !!
       Z.to_nat (Qfloor (inject_Z (Z.of_nat (length (t :: ts))) * p)) =
     Some (percentile (t :: ts) p)) /\
  ascending (sorted (t :: ts)) /\
  sorted (t :: ts) ≡ₚ t :: ts /\
  Qfloor (inject_Z 4 * 0.50) = 2 /\
  percentile [0.1; 0.2; 0.3; 0.4]%Q 0.50 = 0.3%Q.
Proof.
  intros Hstart Htimes total_time Hnz.
  split; [apply final_report_prints; assumption|].
  split.
  { intros p Hp.
    rewrite <- (percentile_lookup (t :: ts) p ltac:(discriminate) Hp).
    by rewrite sorted_length. }
  split; [apply sorted_ascending|].
  split; [apply sorted_perm|].
  split; reflexivity.
Qed.

End FinalReport.

Lemma percentile_index_in_range_witness :
  let n := length (sorted [0.1; 0.2; 0.3; 0.4]%Q) in
  n = 4%nat /\
  0 <= percentile_index n 0.99 <= Z.of_nat n - 1 /\
  is_Some (sorted [0.1; 0.2; 0.3; 0.4]%Q !! Z.to_nat (percentile_index n 0.99)).
Proof.
  apply (percentile_index_in_range [0.1; 0.2; 0.3; 0.4]%Q 0.99%Q).
  - discriminate.
  - unfold report_percentiles.
    apply list_elem_of_further, list_elem_of_further, list_elem_of_further,
      list_elem_of_here.
Defined.

Lemma final_report_statistics_witness :
  let cl := PerfDemo.client (fun _ => PerfDemo.answer 200 "OK") PerfDemo.no_files in
  let w := PerfDemo.finished_test [0.4; 0.2; 0.1; 0.3]%Q in
  @print_final_report cl 4 w =
    (Ret tt,
     set_out (out w ++ summary_lines 4 w (@clock cl 20 - 0)%Q
                ++ @timing_lines cl 0.4%Q [0.2; 0.1; 0.3]%Q)
       (set_ticks 21 w)) /\
  (forall p, p ∈ report_percentiles ->
     sorted [0.4; 0.2; 0.1; 0.3]%Q !!
       Z.to_nat (Qfloor (inject_Z (Z.of_nat 4) * p)) =
     Some (percentile [0.4; 0.2; 0.1; 0.3]%Q p)) /\
  ascending (sorted [0.4; 0.2; 0.1; 0.3]%Q) /\
  sorted [0.4; 0.2; 0.1; 0.3]%Q ≡ₚ [0.4; 0.2; 0.1; 0.3]%Q /\
  Qfloor (inject_Z 4 * 0.50) = 2 /\
  percentile [0.1; 0.2; 0.3; 0.4]%Q 0.50 = 0.3%Q.
Proof.
  intros cl w.
  exact (@final_report_statistics cl 4 w 0%Q 0.4%Q [0.2; 0.1; 0.3]%Q
           eq_refl eq_refl eq_refl).
Defined.

(** C7 as stated fails with exactly one successful request: the report is
    printed, with mean, minimum, maximum and percentiles, and no standard
    deviation. *)
Lemma single_success_has_no_standard_deviation :
  let cl := PerfDemo.client (fun _ => PerfDemo.answer 200 "OK") PerfDemo.no_files in
  let run := @print_final_report cl 1 (PerfDemo.finished_test [0.1%Q]) in
  fst run = Ret tt /\
  Num "Average response time" 0.1%Q "s" ∈ out (snd run) /\
  ~ exists (q : Q) (unit : string),
      Num "Standard deviation" q unit ∈ out (snd run).
Proof.
  intros cl run. split; [reflexivity|]. split.
  - vm_compute. do 11 apply list_elem_of_further. apply list_elem_of_here.
  - intros (q & unit & Hin). vm_compute in Hin.
    repeat (apply elem_of_cons in Hin as [Hin | Hin]; [discriminate Hin|]).
    by apply elem_of_nil in Hin.
Qed.

(** *** send_request *)

Lemma truthy_app (a b : string) : truthy (a +:+ b) = truthy a || truthy b.
Proof. destruct a; reflexivity. Qed.

Section SendRequest.
Context `{ClassHierarchy} `{Client}.

Lemma serialise_eq (data : Json) :
  (if is_dict data then
     if orjson then result_map JStr (orjson_dumps data)
     else result_map JStr (json_dumps data)
   else Ok data) = serialise data.
Proof. destruct data; simpl; try reflexivity. destruct orjson; reflexivity. Qed.

Lemma raise_for_status_error (r : HttpResponse) (w : World) :
  is_error_status (status_code r) = true ->
  raise_for_status r w = (Raise (mkExc HTTPError (http_error_message r)), w).
Proof.
  unfold is_error_status, raise_for_status, http_error_message.
  intros Hs. apply andb_true_iff in Hs as [Hlo Hhi]. rewrite Hlo. simpl.
  destruct (status_code r <? 500) eqn:H500; simpl.
  - rewrite !truthy_app. simpl. rewrite orb_true_r. reflexivity.
  - assert ((500 <=? status_code r) = true) as -> by lia.
    rewrite Hhi. simpl.
    rewrite !truthy_app. simpl. rewrite orb_true_r. reflexivity.
Qed.

Lemma raise_for_status_pass (r : HttpResponse) (w : World) :
  is_error_status (status_code r) = false ->
  raise_for_status r w = (Ret tt, w).
Proof.
  unfold is_error_status, raise_for_status.
  intros Hs. apply andb_false_iff in Hs.
  destruct (400 <=? status_code r) eqn:Hlo; simpl.
  - destruct Hs as [Hs|Hhi]; [discriminate|].
    assert ((status_code r <? 500) = false) as -> by lia.
    assert ((500 <=? status_code r) = true) as -> by lia.
    rewrite Hhi. reflexivity.
  - assert ((500 <=? status_code r) = false) as -> by lia. reflexivity.
Qed.

(** C9, amended. [send_request] reads the clock on entry and again once
    the work has ended, the elapsed time being their difference.  When the
    record serialises, exactly one call of [requests.post] is made: a
    response whose status lies in 400..599, or a failure raised as a
    [RequestException], yields a failure record holding the elapsed time
    and the error's message (not the response body), and nothing
    propagates; every other response, 2xx or not, yields a success record
    with the elapsed time, the status and the response size; an exception
    that is not a [RequestException] propagates.  When serialising the
    record raises, no call is made and that exception is treated the same
    way: a failure record if it is a [RequestException], propagated
    otherwise. *)
Theorem send_request_outcome (data : Json) (w : World) :
  RequestException ∈ mro HTTPError ->
  let t0 := clock (ticks w) in
  let t1 := clock (S (ticks w)) in
  let t2 := clock (S (S (ticks w))) in
  match serialise data with
  | Ok json_data =>
      let call := call_with w json_data in
      posts (snd (send_request data w)) = posts w ++ [call] /\
      fst (send_request data w) =
        match requests_post (length (posts w)) call with
        | Ok r =>
            if is_error_status (status_code r) then
              Ret (Failure (t2 - t0) (http_error_message r))
            else
              Ret (Success (t1 - t0) (status_code r) (length (content r)))
        | Err e =>
            if isinstance e RequestException
            then Ret (Failure (t1 - t0) (exc_str e))
            else Raise e
        end
  | Err e =>
      posts (snd (send_request data w)) = posts w /\
      fst (send_request data w) =
        if isinstance e RequestException
        then Ret (Failure (t1 - t0) (exc_str e))
        else Raise e
  end.
Proof.
  intros Hhier t0 t1 t2.
  assert (forall msg, isinstance (mkExc HTTPError msg) RequestException = true)
    as Hhttp by (intros msg; apply bool_decide_eq_true; exact Hhier).
  unfold send_request. rewrite serialise_eq.
  destruct w as [u mw to rt ec tr st rp tk ps o].
  destruct (serialise data) as [json_data|e];
    cbv [bind time_time try_except_if post lift ret raise set_ticks set_posts
         url max_workers timeout request_times error_count total_requests
         start_time records_processed ticks posts out];
    subst t0 t1 t2; unfold call_with; simpl.
  - destruct (requests_post (length ps) _) as [r|e]; simpl.
    + destruct (is_error_status (status_code r)) eqn:Hs.
      * rewrite (raise_for_status_error _ _ Hs). simpl. rewrite Hhttp.
        split; reflexivity.
      * rewrite (raise_for_status_pass _ _ Hs). simpl. split; reflexivity.
    + destruct (isinstance e RequestException); split; reflexivity.
  - destruct (isinstance e RequestException); split; reflexivity.
Qed.

End SendRequest.

Lemma send_request_outcome_witness :
  let cl := PerfDemo.client (fun _ => PerfDemo.answer 404 "NOT FOUND")
              PerfDemo.no_files in
  let w := PerfDemo.new_test in
  posts (snd (@send_request python_hierarchy cl (JDict []) w)) =
    [call_with w (JStr "{}")] /\
  fst (@send_request python_hierarchy cl (JDict []) w) =
    Ret (Failure (@clock cl 2 - @clock cl 0)
           "404 Client Error: NOT FOUND for url: http://localhost:5000/search").
Proof.
  intros cl w.
  apply (@send_request_outcome python_hierarchy cl (JDict []) w).
  apply list_elem_of_further, list_elem_of_here.
Defined.

(** C9 as stated fails for a response that is neither 2xx nor an error
    status: 304 is reported as a success. *)
Lemma not_modified_counts_as_success :
  let cl := PerfDemo.client (fun _ => PerfDemo.answer 304 "NOT MODIFIED")
              PerfDemo.no_files in
  exists (elapsed : Q) (size : nat),
    fst (@send_request python_hierarchy cl (JDict []) PerfDemo.new_test) =
    Ret (Success elapsed 304 size) /\
    success (Success elapsed 304 size) = true.
Proof. intros cl. eexists _, _. split; reflexivity. Qed.

(** A record that does not serialise reaches no [requests.post]: the
    exception leaves [send_request]. *)
Example unserialisable_record_is_not_posted :
  let cl := PerfDemo.client_of PerfDemo.read_object PerfDemo.write_shallow
              (fun _ => PerfDemo.answer 200 "OK") PerfDemo.no_files in
  let deep := PerfDemo.nested 255 in
  @send_request python_hierarchy cl deep PerfDemo.new_test =
  (Raise (mkExc TypeError "Recursion limit reached"),
   set_ticks 1 PerfDemo.new_test).
Proof. reflexivity. Qed.

(** *** process_file *)

Lemma extends_refl (w : World) : quiet w w.
Proof.
  repeat split; try reflexivity; [by rewrite app_nil_r|].
  exists []. split; [by rewrite app_nil_r | constructor].
Qed.

Lemma extends_trans (c1 c2 : list PostCall) (m1 m2 : list string)
    (w1 w2 w3 : World) :
  extends c1 m1 w1 w2 -> extends c2 m2 w2 w3 ->
  extends (c1 ++ c2) (m1 ++ m2) w1 w3.
Proof.
  intros (Hu1 & Ht1 & Hm1 & Hp1 & more1 & Ho1 & Hf1)
         (Hu2 & Ht2 & Hm2 & Hp2 & more2 & Ho2 & Hf2).
  repeat split; try congruence.
  - rewrite Hp2, Hp1. by rewrite app_assoc.
  - exists (more1 ++ more2). split.
    + rewrite Ho2, Ho1. by rewrite app_assoc.
    + apply Forall_app. split.
      * eapply Forall_impl; [exact Hf1|]. intros msg Hin.
        apply elem_of_app. by left.
      * eapply Forall_impl; [exact Hf2|]. intros msg Hin.
        apply elem_of_app. by right.
Qed.

Lemma quiet_trans (w1 w2 w3 : World) : quiet w1 w2 -> quiet w2 w3 -> quiet w1 w3.
Proof. intros H12 H23. exact (extends_trans [] [] [] [] _ _ _ H12 H23). Qed.

Lemma extends_quiet (c : list PostCall) (m : list string) (w1 w2 w3 : World) :
  extends c m w1 w2 -> quiet w2 w3 -> extends c m w1 w3.
Proof.
  intros H12 H23.
  pose proof (extends_trans c [] m [] _ _ _ H12 H23) as Hx.
  by rewrite !app_nil_r in Hx.
Qed.

Lemma quiet_extends (c : list PostCall) (m : list string) (w1 w2 w3 : World) :
  quiet w1 w2 -> extends c m w2 w3 -> extends c m w1 w3.
Proof. intros H12 H23. exact (extends_trans [] c [] m _ _ _ H12 H23). Qed.

Lemma printed_extends (msg : string) (w : World) :
  extends [] [msg] w (set_out (out w ++ [Text msg]) w).
Proof.
  repeat split; try reflexivity; simpl; [by rewrite app_nil_r|].
  eexists. split; [reflexivity|].
  constructor; [apply list_elem_of_here | constructor].
Qed.

Lemma quietly_ret {A} (a : A) : quietly (ret a).
Proof. intros w. apply extends_refl. Qed.

Lemma quietly_raise {A} (e : PyExc) : quietly (@raise World A e).
Proof. intros w. apply extends_refl. Qed.

Lemma quietly_get : quietly (@get World).
Proof. intros w. apply extends_refl. Qed.

Lemma quietly_lift {A} (r : PyResult A) : quietly (@lift World A r).
Proof. destruct r; [apply quietly_ret | apply quietly_raise]. Qed.

Lemma quietly_future_result {A} (f : Future A) : quietly (future_result f).
Proof. intros w. apply extends_refl. Qed.

Lemma quietly_print (l : Line) : quietly (print l).
Proof.
  intros w. repeat split; try reflexivity; [by rewrite app_nil_r|].
  exists [l]. split; [reflexivity | constructor].
Qed.

Lemma quietly_time_time `{Client} : quietly time_time.
Proof.
  intros w. repeat split; try reflexivity; simpl; [by rewrite app_nil_r|].
  exists []. split; [by rewrite app_nil_r | constructor].
Qed.

Lemma quietly_modify (f : World -> World) :
  (forall w, quiet w (f w)) -> quietly (modify f).
Proof. intros Hf w. apply Hf. Qed.

Lemma quietly_bind {A B} (m : M World A) (k : A -> M World B) :
  quietly m -> (forall a, quietly (k a)) -> quietly (bind m k).
Proof.
  intros Hm Hk w. unfold bind. specialize (Hm w).
  destruct (m w) as [[a|e|c] w1]; simpl in *; [|assumption..].
  eapply quiet_trans; [exact Hm | apply Hk].
Qed.

Lemma quietly_try_except {A} (m : M World A) (h : PyExc -> M World A) :
  quietly m -> (forall e, quietly (h e)) -> quietly (try_except m h).
Proof.
  intros Hm Hh w. unfold try_except. specialize (Hm w).
  destruct (m w) as [[a|e|c] w1]; simpl in *; [assumption| |assumption].
  eapply quiet_trans; [exact Hm | apply Hh].
Qed.

Ltac quiet_setter :=
  intros ?; repeat split; try reflexivity; simpl;
  [ by rewrite app_nil_r
  | exists []; split; [by rewrite app_nil_r | constructor] ].

Ltac quietly_step :=
  first
    [ apply quietly_ret | apply quietly_raise | apply quietly_get
    | apply quietly_lift | apply quietly_future_result | apply quietly_print
    | apply quietly_time_time
    | apply quietly_modify; quiet_setter
    | apply quietly_bind; [|intros ?]
    | apply quietly_try_except; [|intros ?]
    | match goal with
      | |- quietly (match ?x with _ => _ end) => destruct x
      end ].

Ltac quietly := repeat quietly_step.

Section ProcessFile.
Context `{ClassHierarchy} `{Client}.

Lemma quietly_since_start : quietly since_start.
Proof. unfold since_start. quietly. Qed.

Lemma quietly_progress (processed : Z) : quietly (print_progress_report processed).
Proof.
  unfold print_progress_report.
  apply quietly_bind; [apply quietly_since_start | intros ?]. quietly.
Qed.

Lemma quietly_percentile (label : string) (l : list Q) (idx : Z) :
  quietly (print_percentile label l idx).
Proof. unfold print_percentile, list_index. quietly. Qed.

Lemma quietly_final_report (processed : Z) :
  quietly (print_final_report processed).
Proof.
  unfold print_final_report.
  apply quietly_bind; [apply quietly_since_start | intros ?].
  repeat first [ apply quietly_percentile
               | apply quietly_bind; [|intros ?]
               | quietly_step ].
Qed.

Lemma quietly_collect (futures : list (Future RequestResult))
    (report_interval : Z) :
  quietly (collect_results futures report_interval).
Proof.
  induction futures as [|future rest IH]; simpl; [apply quietly_ret|].
  apply quietly_bind; [|intros ?; exact IH].
  apply quietly_try_except; [|intros ?; quietly].
  repeat first [ apply quietly_progress
               | apply quietly_bind; [|intros ?]
               | quietly_step ].
Qed.

Lemma send_request_extends (data : Json) (w : World) :
  extends (calls_for w data) [] w (snd (send_request data w)).
Proof.
  assert (forall (c : list PostCall) (w' : World),
            url w' = url w -> timeout w' = timeout w ->
            max_workers w' = max_workers w ->
            posts w' = posts w ++ c -> out w' = out w ->
            extends c [] w w') as Hext.
  { intros c w' Hu Ht Hm Hp Ho. repeat split; try assumption.
    exists []. split; [by rewrite app_nil_r | constructor]. }
  unfold send_request, calls_for. rewrite serialise_eq.
  unfold bind at 1, time_time at 1. unfold try_except_if.
  destruct (serialise data) as [json_data|e]; unfold bind at 1, lift at 1.
  - unfold ret at 1. unfold bind at 1, post at 1.
    fold (call_with (set_ticks (S (ticks w)) w) json_data).
    change (call_with (set_ticks (S (ticks w)) w) json_data)
      with (call_with w json_data).
    simpl posts.
    destruct (requests_post (length (posts w)) (call_with w json_data))
      as [r|e]; simpl.
    + unfold bind at 1, time_time at 1. unfold bind at 1.
      destruct (is_error_status (status_code r)) eqn:Hs.
      * rewrite (raise_for_status_error _ _ Hs).
        destruct (isinstance _ RequestException); simpl;
          apply Hext; reflexivity.
      * rewrite (raise_for_status_pass _ _ Hs). simpl. apply Hext; reflexivity.
    + destruct (isinstance e RequestException); simpl; apply Hext; reflexivity.
  - unfold raise at 1.
    destruct (isinstance e RequestException); simpl;
      apply Hext; rewrite ?app_nil_r; reflexivity.
Qed.

Lemma calls_for_steady (w w' : World) (data : Json) :
  url w' = url w -> timeout w' = timeout w ->
  calls_for w' data = calls_for w data.
Proof. intros Hu Ht. unfold calls_for, call_with. by rewrite Hu, Ht. Qed.

Lemma calls_steady (w w' : World) (records : list Json) :
  url w' = url w -> timeout w' = timeout w ->
  flat_map (calls_for w') records = flat_map (calls_for w) records.
Proof.
  intros Hu Ht. apply flat_map_ext. intros d. by apply calls_for_steady.
Qed.

Lemma only_decode_errors_tail (line : string) (rest : list string) :
  only_decode_errors (line :: rest) -> only_decode_errors rest.
Proof.
  intros Hall l e Hin. apply Hall. by apply list_elem_of_further.
Qed.

Lemma well_formed_records_cons (line : string) (rest : list string) :
  well_formed_records (line :: rest) =
  match line_kind line with
  | WellFormed record => record :: well_formed_records rest
  | _ => well_formed_records rest
  end.
Proof. unfold well_formed_records. simpl. by destruct (line_kind line). Qed.

Lemma read_lines_cons (line : string) (rest : list string) (line_num : Z)
    (futures : list (Future RequestResult)) :
  read_lines (line :: rest) line_num futures =
  if negb (truthy (strip line)) then read_lines rest (line_num + 1) futures
  else
    bind
      (try_except_if (fun e => isinstance e JSONDecodeError)
         (bind (lift (loads (strip line)))
            (fun record =>
               bind (submit (send_request record))
                 (fun future => ret (futures ++ [future]))))
         (fun e =>
            bind (print (Text (invalid_json_message line_num e)))
              (fun _ => ret futures)))
      (fun futures' => read_lines rest (line_num + 1) futures').
Proof. reflexivity. Qed.

(** What a line that does not stop the loop adds to the lines handled. *)
Lemma handled_cons (line : string) (rest : list string) (line_num : Z)
    (w : World) :
  stops_reading line = false ->
  lines_handled (line :: rest) = line :: lines_handled rest /\
  flat_map (calls_for w) (well_formed_records (line :: lines_handled rest)) =
    match line_kind line with
    | WellFormed record => calls_for w record
    | _ => []
    end ++ flat_map (calls_for w) (well_formed_records (lines_handled rest)) /\
  invalid_json_messages (line :: lines_handled rest) line_num =
    match line_kind line with
    | Malformed e => [invalid_json_message line_num e]
    | _ => []
    end ++ invalid_json_messages (lines_handled rest) (line_num + 1).
Proof.
  intros Hstop. repeat split.
  - simpl. by rewrite Hstop.
  - rewrite well_formed_records_cons. by destruct (line_kind line).
Qed.

(** The reading loop deals with the lines up to the first one that stops
    it: each is skipped, logged or submitted.  It ends normally when no
    line stops it, and with that line's exception otherwise. *)
Lemma read_lines_handled (lines : list string) :
  forall (line_num : Z) (futures : list (Future RequestResult)) (w : World),
    extends
      (flat_map (calls_for w) (well_formed_records (lines_handled lines)))
      (invalid_json_messages (lines_handled lines) line_num) w
      (snd (read_lines lines line_num futures w)) /\
    (if existsb stops_reading lines
     then exists e, fst (read_lines lines line_num futures w) = Raise e
     else exists futures',
            fst (read_lines lines line_num futures w) = Ret futures').
Proof.
  induction lines as [|line rest IH]; intros line_num futures w.
  { simpl. split; [apply extends_refl | by eexists]. }
  rewrite read_lines_cons.
  change (existsb stops_reading (line :: rest))
    with (stops_reading line || existsb stops_reading rest).
  pose proof (handled_cons line rest line_num w) as Hcons.
  unfold stops_reading at 1 in Hcons. unfold stops_reading at 1.
  unfold line_kind in Hcons |- *.
  destruct (strip line) as [|c stripped] eqn:Hstrip.
  - destruct (Hcons eq_refl) as (-> & -> & ->).
    change (negb (truthy EmptyString)) with true. cbv iota.
    rewrite !app_nil_l. apply IH.
  - change (negb (truthy (String c stripped))) with false. cbv iota.
    destruct (loads (String c stripped)) as [record|e] eqn:Hloads;
      cbv [bind try_except_if lift ret raise submit print modify].
    + destruct (Hcons eq_refl) as (-> & -> & ->).
      pose proof (send_request_extends record w) as Hsend.
      destruct (send_request record w) as [r w1]. simpl in Hsend.
      destruct (IH (line_num + 1) (futures ++ [r]) w1) as [Hrest Hret].
      split; [|exact Hret].
      rewrite (calls_steady w w1) in Hrest
        by (destruct Hsend as (Hu & Ht & _); assumption).
      exact (extends_trans _ _ [] _ _ _ _ Hsend Hrest).
    + destruct (isinstance e JSONDecodeError) eqn:Hdec.
      * destruct (Hcons eq_refl) as (-> & -> & ->).
        set (w1 := set_out _ w).
        assert (extends [] [invalid_json_message line_num e] w w1) as Hlog
          by apply printed_extends.
        destruct (IH (line_num + 1) futures w1) as [Hrest Hret].
        split; [|exact Hret].
        rewrite (calls_steady w w1) in Hrest by reflexivity.
        exact (extends_trans [] _ [_] _ _ _ _ Hlog Hrest).
      * assert (lines_handled (line :: rest) = []) as ->.
        { simpl. unfold stops_reading, line_kind.
          by rewrite Hstrip, Hloads, Hdec. }
        split; [apply extends_refl | by eexists].
Qed.

Lemma lines_handled_all (lines : list string) :
  (forall line, line ∈ lines -> stops_reading line = false) ->
  lines_handled lines = lines.
Proof.
  induction lines as [|line rest IH]; intros Hnone; [reflexivity|].
  simpl. rewrite (Hnone line) by apply list_elem_of_here.
  f_equal. apply IH. intros l Hin. apply Hnone. by apply list_elem_of_further.
Qed.

Lemma extends_bind {A B} (c : list PostCall) (msgs : list string)
    (m : M World A) (k : A -> M World B) (w : World) :
  extends c msgs w (snd (m w)) -> (forall a, quietly (k a)) ->
  extends c msgs w (snd (bind m k w)).
Proof.
  intros Hm Hk. unfold bind.
  destruct (m w) as [[a|e|code] w1]; simpl in *; [|assumption..].
  eapply extends_quiet; [exact Hm | apply Hk].
Qed.

Lemma extends_try_except {A} (c : list PostCall) (msgs : list string)
    (m : M World A) (h : PyExc -> M World A) (w : World) :
  extends c msgs w (snd (m w)) -> (forall e, quietly (h e)) ->
  extends c msgs w (snd (try_except m h w)).
Proof.
  intros Hm Hh. unfold try_except.
  destruct (m w) as [[a|e|code] w1]; simpl in *; [assumption| |assumption].
  eapply extends_quiet; [exact Hm | apply Hh].
Qed.

Lemma new_pool_created (w : World) :
  0 < max_workers w -> new_pool w = (Ret tt, w).
Proof.
  intros Hpos. unfold new_pool, bind, get.
  assert ((max_workers w <=? 0) = false) as -> by lia. reflexivity.
Qed.

Lemma quietly_report_failure (file_path : string) (e : PyExc) :
  quietly (report_failure file_path e).
Proof. unfold report_failure. quietly. Qed.

Lemma quietly_end_of_file (file_path : string) :
  quietly (end_of_file file_path).
Proof. unfold end_of_file. quietly. Qed.

Lemma quietly_prelude (report_interval : Z) :
  quietly (bind (print_configuration report_interval) (fun _ => start_clock)).
Proof. unfold print_configuration, start_clock. quietly. Qed.

(** [process_file], from the state reached once the configuration is
    printed and the clock started. *)
Lemma process_file_from_start (file_path : string) (report_interval : Z)
    (w : World) :
  process_file file_path report_interval w =
  bind
    (try_except (submit_and_collect file_path report_interval)
       (report_failure file_path))
    (fun completed : bool =>
       if completed then
         bind get (fun w' =>
           bind (print_final_report (records_processed w')) (fun _ => ret true))
       else ret false)
    (snd (bind (print_configuration report_interval) (fun _ => start_clock) w)).
Proof.
  unfold process_file, print_configuration, start_clock.
  cbv [bind get print modify ret time_time]. reflexivity.
Qed.

Lemma quietly_finish (completed : bool) :
  quietly (if completed then
             bind get (fun w' =>
               bind (print_final_report (records_processed w'))
                 (fun _ => ret true))
           else ret false).
Proof.
  destruct completed; [|apply quietly_ret].
  apply quietly_bind; [apply quietly_get | intros w'].
  apply quietly_bind; [apply quietly_final_report | intros ?; apply quietly_ret].
Qed.

(** Both [except] clauses return [False]. *)
Lemma report_failure_returns_false (file_path : string) (e : PyExc)
    (w : World) :
  fst (report_failure file_path e w) = Ret false.
Proof.
  unfold report_failure. by destruct (isinstance e FileNotFoundError).
Qed.

(** An exception that leaves the body of the [try] makes the run return
    [False]. *)
Lemma failed_run_returns_false (file_path : string) (report_interval : Z)
    (w : World) (e : PyExc) :
  fst (submit_and_collect file_path report_interval
         (snd (bind (print_configuration report_interval)
                 (fun _ => start_clock) w))) = Raise e ->
  fst (process_file file_path report_interval w) = Ret false.
Proof.
  intros Hraise. rewrite process_file_from_start.
  set (w0 := snd (bind (print_configuration report_interval)
                    (fun _ => start_clock) w)) in *.
  unfold bind at 1, try_except.
  destruct (submit_and_collect file_path report_interval w0) as [r w1].
  simpl in Hraise. subst r.
  pose proof (report_failure_returns_false file_path e w1) as Hfalse.
  destruct (report_failure file_path e w1) as [r w2]. simpl in Hfalse.
  by subst r.
Qed.

(** When the reading is cut short, the body of the [try] raises in the
    state the reading loop left: nothing is collected. *)
Lemma cut_short_raises (file_path : string) (report_interval : Z)
    (lines : list string) (w : World) :
  open_file file_path = Ok lines -> 0 < max_workers w ->
  cut_short file_path lines ->
  exists e,
    submit_and_collect file_path report_interval w =
    (Raise e, snd (read_lines lines 1 [] w)).
Proof.
  intros Hopen Hworkers Hcut.
  unfold submit_and_collect. rewrite Hopen. unfold bind at 1. simpl lift.
  unfold ret at 1. unfold bind at 1. rewrite (new_pool_created _ Hworkers).
  unfold bind at 1.
  destruct (read_lines_handled lines 1 [] w) as [_ Hend].
  destruct (read_lines lines 1 [] w) as [r w1]. simpl in Hend |- *.
  destruct (existsb stops_reading lines) eqn:Hstops.
  - destruct Hend as [e ->]. by exists e.
  - destruct Hend as [futures ->].
    destruct Hcut as [Hcut | [e He]]; [congruence|].
    unfold bind at 1, end_of_file. rewrite He. by exists e.
Qed.

(** What a run over a file that opens posts and logs. *)
Lemma process_file_handles (file_path : string) (report_interval : Z)
    (w : World) (lines : list string) :
  open_file file_path = Ok lines ->
  0 < max_workers w ->
  extends
    (flat_map (calls_for w) (well_formed_records (lines_handled lines)))
    (invalid_json_messages (lines_handled lines) 1) w
    (snd (process_file file_path report_interval w)).
Proof.
  intros Hopen Hworkers.
  pose proof (quietly_prelude report_interval w) as Hstart.
  rewrite process_file_from_start.
  set (w0 := snd (bind (print_configuration report_interval)
                    (fun _ => start_clock) w)) in *.
  assert (0 < max_workers w0) as Hworkers0
    by (destruct Hstart as (_ & _ & Hm & _); rewrite Hm; exact Hworkers).
  eapply quiet_extends; [exact Hstart|].
  assert (flat_map (calls_for w)
            (well_formed_records (lines_handled lines)) =
          flat_map (calls_for w0)
            (well_formed_records (lines_handled lines))) as ->
    by (symmetry; apply calls_steady;
        destruct Hstart as (Hu & Ht & _); assumption).
  apply extends_bind; [|apply quietly_finish].
  apply extends_try_except; [|apply quietly_report_failure].
  unfold submit_and_collect. rewrite Hopen. unfold bind at 1. simpl lift.
  unfold ret at 1. unfold bind at 1.
  rewrite (new_pool_created _ Hworkers0).
  apply extends_bind; [apply read_lines_handled|].
  intros futures. apply quietly_bind; [apply quietly_end_of_file|].
  intros ?. apply quietly_bind; [apply quietly_collect|].
  intros ?. apply quietly_ret.
Qed.

(** C8, amended. Blank lines are skipped; a line whose parse raises a
    [JSONDecodeError] is logged and skipped, and the lines after it are
    still processed; a line whose parse raises any other exception stops
    the reading.  One POST is submitted for every well-formed line read
    before that whose record serialises (the submissions follow the order
    of the file).  When the reading is cut short, by such a line or by an
    error of the iteration over the file, the run returns [False]; a
    missing input file is reported and the run returns [False]. *)
Theorem process_file_submits_well_formed_lines (file_path : string)
    (report_interval : Z) (w : World) :
  let run := process_file file_path report_interval w in
  (forall e,
     open_file file_path = Err e ->
     isinstance e FileNotFoundError = true ->
     fst run = Ret false /\
     extends [] ["ERROR: File not found: " +:+ file_path] w (snd run)) /\
  (forall lines,
     open_file file_path = Ok lines ->
     0 < max_workers w ->
     let handled := lines_handled lines in
     extends (flat_map (calls_for w) (well_formed_records handled))
       (invalid_json_messages handled 1) w (snd run) /\
     ((forall line, line ∈ lines -> stops_reading line = false) ->
      handled = lines) /\
     (cut_short file_path lines -> fst run = Ret false)).
Proof.
  intros run. subst run.
  pose proof (quietly_prelude report_interval w) as Hstart.
  split.
  - intros e Hopen Hmissing. rewrite process_file_from_start.
    set (w0 := snd (bind (print_configuration report_interval)
                      (fun _ => start_clock) w)) in *.
    assert (try_except (submit_and_collect file_path report_interval)
              (report_failure file_path) w0 =
            (Ret false,
             set_out (out w0 ++ [Text ("ERROR: File not found: " +:+ file_path)])
               w0)) as Hrun.
    { unfold try_except, submit_and_collect, bind at 1. rewrite Hopen. simpl.
      unfold report_failure. rewrite Hmissing. reflexivity. }
    match goal with
    | |- fst ?r = _ /\ _ =>
        assert (r = (Ret false,
                     set_out (out w0 ++
                                [Text ("ERROR: File not found: " +:+ file_path)])
                       w0)) as ->
          by (unfold bind at 1; rewrite Hrun; reflexivity)
    end.
    split; [reflexivity|].
    eapply quiet_extends; [exact Hstart|]. apply printed_extends.
  - intros lines Hopen Hworkers handled. subst handled.
    split; [|split].
    + by apply process_file_handles.
    + apply lines_handled_all.
    + intros Hcut.
      assert (0 < max_workers
                    (snd (bind (print_configuration report_interval)
                            (fun _ => start_clock) w))) as Hworkers0
        by (destruct Hstart as (_ & _ & Hm & _); rewrite Hm; exact Hworkers).
      destruct (cut_short_raises file_path report_interval lines _
                  Hopen Hworkers0 Hcut) as [e He].
      apply (failed_run_returns_false _ _ _ e). by rewrite He.
Qed.

End ProcessFile.

Lemma process_file_submits_well_formed_lines_witness :
  let lines := ["{}"; "  "; "oops"; " {} "] in
  let cl := PerfDemo.client (fun _ => PerfDemo.answer 200 "OK")
              (PerfDemo.one_file lines) in
  let w := PerfDemo.new_test in
  (fst (@process_file python_hierarchy cl "missing.jsonl" 1 w) = Ret false /\
   extends [] ["ERROR: File not found: missing.jsonl"] w
     (snd (@process_file python_hierarchy cl "missing.jsonl" 1 w))) /\
  extends [call_with w (JStr "{}"); call_with w (JStr "{}")]
    ["ERROR: Invalid JSON on line 3: Expecting value"] w
    (snd (@process_file python_hierarchy cl "records.jsonl" 1 w)).
Proof.
  intros lines cl w. split.
  - apply (proj1 (@process_file_submits_well_formed_lines python_hierarchy cl
                    "missing.jsonl" 1 w)
             (mkExc FileNotFoundError
                "[Errno 2] No such file or directory: 'missing.jsonl'"));
      reflexivity.
  - exact (proj1 (proj2 (@process_file_submits_well_formed_lines
                           python_hierarchy cl "records.jsonl" 1 w)
                    lines eq_refl eq_refl)).
Defined.

(** C8 as stated fails for a line whose parse raises something other than
    a [JSONDecodeError] (here the [ValueError] of an integer literal of 4301
    digits): the line is not logged as invalid JSON, the reading stops, the
    well-formed line after it is never posted, and the run returns
    [False]. *)
Lemma parse_failure_ends_the_run :
  let lines := ["{}"; repeat_string "9" 4301; "{}"] in
  let cl := PerfDemo.client_of PerfDemo.read_limited (fun _ => Ok "{}")
              (fun _ => PerfDemo.answer 200 "OK") (PerfDemo.one_file lines) in
  let w := PerfDemo.new_test in
  let run := @process_file python_hierarchy cl "records.jsonl" 1 w in
  @well_formed_records cl lines = [JDict []; JDict []] /\
  posts (snd run) = [call_with w (JStr "{}")] /\
  fst run = Ret false /\
  (forall e, Text (invalid_json_message 2 e) ∉ out (snd run)) /\
  Text ("ERROR: Unexpected error: "
        +:+ "Exceeds the limit (4300 digits) for integer string conversion")
    ∈ out (snd run).
Proof.
  intros lines cl w run.
  assert (out (snd run) =
          [ Text "Starting performance test with 2 workers";
            Text "Target URL: http://localhost:5000/search";
            Text "Timeout: 10s";
            Text "Report interval: 1 records";
            Text (repeat_string "-" 60);
            Text ("ERROR: Unexpected error: "
                  +:+ "Exceeds the limit (4300 digits) for integer string conversion") ])
    as -> by (vm_compute; reflexivity).
  split; [vm_compute; reflexivity|].
  split; [vm_compute; reflexivity|].
  split; [vm_compute; reflexivity|]. split.
  - intros e Hin. simpl in Hin.
    repeat (apply elem_of_cons in Hin as [Hin | Hin]; [discriminate Hin|]).
    by apply elem_of_nil in Hin.
  - simpl. repeat first [apply list_elem_of_here | apply list_elem_of_further].
Qed.

End PerfFacts.

(** * Further properties of the gateway *)

Module ServerMore.
Import Server Spec.

Section Search.
Context `{ClassHierarchy} `{Sdk}.

Lemma exception_to_code_in_codes (e : PyExc) : exception_to_code e ∈ http_codes.
Proof.
  unfold exception_to_code.
  destruct (dict_get EXCEPTION_HTTP_CODES (exc_type e)) as [code|] eqn:Hget.
  - destruct e as [c msg]; destruct c; simpl in Hget;
      inversion Hget; subst; unfold http_codes; set_solver.
  - destruct (scan_items e EXCEPTION_HTTP_CODES) as [code|] eqn:Hscan;
      [|unfold http_codes; set_solver].
    simpl in Hscan.
    repeat (destruct (isinstance e _);
            [ inversion Hscan; subst; unfold http_codes; set_solver | ]).
    discriminate Hscan.
Qed.

(** X1. [process_search] calls the engine once with the profile defaulted
    to "SEARCH"; a result is returned untouched and nothing is written to
    the error stream; a failure is echoed there as "<message> [<request>]"
    and the very same exception reaches the caller. *)
Theorem process_search_echoes_and_reraises (engine : SzEngine)
    (search_json : string) (engine_flags : Z) (profile : option string)
    (w : World) :
  let call := {| call_attributes := search_json; call_flags := engine_flags;
                 call_search_profile := py_or profile "SEARCH" |} in
  process_search (Some engine) search_json engine_flags profile w =
  match search_by_attributes engine search_json engine_flags
          (py_or profile "SEARCH") with
  | Ok r => (Ret r, after_call w call [])
  | Err e =>
      (Raise e,
       after_call w call [exc_str e +:+ " [" +:+ search_json +:+ "]"])
  end.
Proof.
  intros call.
  unfold process_search, call_search, try_except, bind, record_call,
    print_stderr, modify, lift, ret, raise. simpl.
  destruct (search_by_attributes engine _ _ _) as [r|e]; simpl.
  - unfold after_call. simpl. by rewrite app_nil_r.
  - reflexivity.
Qed.

(** X2. Once the body has decoded, [do_search] always answers, whatever the
    state of the process (engine or pool missing included).  The answer is
    either 200 with, as its body, the very text the engine returned for the
    forwarded request (pool and engine are then both there), or a JSON body
    holding the single key "error" with the message of an exception, under
    the code the classifier gives that exception. *)
Theorem decoded_request_is_always_answered (request : Request) (w : World) :
  utf8_valid (data request) = true ->
  exists r : Response,
    fst (serve_search request w) = Responded r /\
    ((exists (pool : Executor) (engine : SzEngine) (s : string),
        executor w = Some pool /\
        sz_engine w = Some engine /\
        search_by_attributes engine (call_attributes (forwarded request))
          (call_flags (forwarded request))
          (call_search_profile (forwarded request)) = Ok s /\
        r = {| status := 200; content_type := "text/html; charset=utf-8";
               body := BText s |}) \/
     (exists e : PyExc,
        r = {| status := exception_to_code e;
               content_type := "application/json";
               body := BJson (JDict [("error", JStr (exc_str e))]) |} /\
        status r ∈ http_codes)).
Proof.
  intros Hutf.
  destruct (executor w) as [pool|] eqn:Hpool;
    [destruct (sz_engine w) as [engine|] eqn:Hengine|].
  - unfold serve_search.
    rewrite (ServerFacts.do_search_run request w pool engine Hutf Hpool Hengine).
    destruct (search_by_attributes engine _ _ _) as [s|e] eqn:Hcall.
    + eexists. split; [reflexivity|]. left. by exists pool, engine, s.
    + eexists. split; [reflexivity|]. right. exists e.
      split; [reflexivity | apply exception_to_code_in_codes].
  - unfold serve_search, do_search, decode. rewrite Hutf.
    unfold bind at 1. simpl.
    unfold try_except, bind, get, submit, result. rewrite Hpool. simpl.
    unfold process_search, call_search, try_except, bind.
    rewrite Hengine. simpl.
    eexists. split; [reflexivity|]. right.
    exists (none_has_no "search_by_attributes").
    split; [reflexivity | apply exception_to_code_in_codes].
  - unfold serve_search, do_search, decode. rewrite Hutf.
    unfold bind at 1. simpl.
    unfold try_except, bind, get, submit, result. rewrite Hpool. simpl.
    eexists. split; [reflexivity|]. right. exists (none_has_no "submit").
    split; [reflexivity | apply exception_to_code_in_codes].
Qed.

(** X3. The answer of [do_search] depends on the request only through its
    body and its [profile] parameter: the [flags] parameter, and any other
    query parameter, changes nothing. *)
Theorem only_body_and_profile_matter (r1 r2 : Request) (w : World) :
  data r1 = data r2 ->
  args_get (args r1) "profile" = args_get (args r2) "profile" ->
  do_search r1 w = do_search r2 w.
Proof.
  intros Hdata Hprofile. unfold do_search.
  rewrite Hdata, Hprofile.
  destruct (truthy_opt (args_get (args r1) "flags"));
    destruct (truthy_opt (args_get (args r2) "flags")); reflexivity.
Qed.

End Search.

Lemma decoded_request_is_always_answered_witness :
  let request := {| data := encode Demo.john_smith; args := [] |} in
  let w := Demo.serving Demo.quiet_engine in
  exists r : Response,
    fst (@serve_search python_hierarchy Demo.sdk request w) = Responded r /\
    ((exists (pool : Executor) (engine : SzEngine) (s : string),
        executor w = Some pool /\
        sz_engine w = Some engine /\
        search_by_attributes engine
          (call_attributes (@forwarded Demo.sdk request))
          (call_flags (@forwarded Demo.sdk request))
          (call_search_profile (@forwarded Demo.sdk request)) = Ok s /\
        r = {| status := 200; content_type := "text/html; charset=utf-8";
               body := BText s |}) \/
     (exists e : PyExc,
        r = {| status := @exception_to_code python_hierarchy e;
               content_type := "application/json";
               body := BJson (JDict [("error", JStr (exc_str e))]) |} /\
        status r ∈ http_codes)).
Proof.
  intros request w.
  apply (@decoded_request_is_always_answered python_hierarchy Demo.sdk
           request w).
  reflexivity.
Defined.

Lemma only_body_and_profile_matter_witness :
  @do_search python_hierarchy Demo.sdk
    {| data := encode Demo.john_smith;
       args := [("flags", "SZ_INCLUDE_FEATURE_SCORES|SZ_ENTITY_INCLUDE_ALL")] |}
    (Demo.serving Demo.quiet_engine) =
  @do_search python_hierarchy Demo.sdk
    {| data := encode Demo.john_smith; args := [("limit", "10")] |}
    (Demo.serving Demo.quiet_engine).
Proof.
  apply (@only_body_and_profile_matter python_hierarchy Demo.sdk);
    reflexivity.
Defined.

Section Startup.
Context `{Sdk}.

Ltac run_init :=
  unfold module_init, try_except, bind, getenv, print_stderr, sys_exit,
    set_sz_engine, set_executor, log, modify, lift, ret, raise.

(** X4. The initialisation block never lets an exception out: it either
    completes, with engine and pool set, the success logged and nothing
    written to the error stream, or it exits with code -1 after writing one
    line to the error stream, leaving the pool unset.  Either way the
    environment, the standard output and the listener are untouched. *)
Theorem module_init_completes_or_exits (w : World) :
  let w' := snd (module_init w) in
  ((fst (module_init w) = Ret tt /\
    stderr w' = stderr w /\
    is_Some (sz_engine w') /\ is_Some (executor w') /\
    logged w' =
      logged w ++ [LogInfo "Senzing Engine and executor initialized successfully"])
   \/
   (fst (module_init w) = SysExit (-1) /\
    (exists line, stderr w' = stderr w ++ [line]) /\
    executor w' = executor w /\ logged w' = logged w)) /\
  environ w' = environ w /\ stdout w' = stdout w /\
  listener w' = listener w /\ engine_calls w' = engine_calls w.
Proof.
  run_init.
  destruct (truthy_opt (environ w !! "SENZING_ENGINE_CONFIGURATION_JSON"));
    simpl; [|split; [right|]; repeat split; by eexists].
  destruct (SzAbstractFactoryCore _ _) as [factory|e]; simpl;
    [|split; [right|]; repeat split; by eexists].
  destruct (create_engine factory) as [engine|e]; simpl;
    [|split; [right|]; repeat split; by eexists].
  destruct (environ w !! "SENZING_THREADS_PER_PROCESS") as [threads|]; simpl.
  - destruct (py_int threads) as [n|e]; simpl;
      [|split; [right|]; repeat split; by eexists].
    destruct (ThreadPoolExecutor _) as [pool|e]; simpl.
    + split; [left|]; repeat split; by eexists.
    + split; [right|]; repeat split; by eexists.
  - split; [left|]; repeat split; by eexists.
Qed.

(** X5. With the configuration present and the engine created, the value of
    SENZING_THREADS_PER_PROCESS decides the rest: a value [int] rejects, or
    a negative count, is fatal (exit -1, the reason on the error stream,
    engine set but no pool); zero asks for the library's default pool size;
    a positive count is the pool size. *)
Theorem thread_count_decides_the_pool (w : World) (cfg threads : string)
    (factory : SzFactory) (engine : SzEngine) :
  environ w !! "SENZING_ENGINE_CONFIGURATION_JSON" = Some cfg ->
  truthy cfg = true ->
  SzAbstractFactoryCore "sz_search_flask" cfg = Ok factory ->
  create_engine factory = Ok engine ->
  environ w !! "SENZING_THREADS_PER_PROCESS" = Some threads ->
  let fatal (line : string) :=
    (SysExit (-1) : Outcome unit,
     {| environ := environ w; stdout := stdout w;
        stderr := stderr w ++ [line]; logged := logged w;
        sz_engine := Some engine; executor := executor w;
        engine_calls := engine_calls w; listener := listener w |}) in
  let ready (size : option Z) :=
    (Ret tt,
     {| environ := environ w; stdout := stdout w; stderr := stderr w;
        logged := logged w ++
          [LogInfo "Senzing Engine and executor initialized successfully"];
        sz_engine := Some engine;
        executor := Some {| max_workers := size |};
        engine_calls := engine_calls w; listener := listener w |}) in
  module_init w =
  match py_int threads with
  | Err e => fatal (exc_str e)
  | Ok n =>
      if n <? 0 then fatal "max_workers must be greater than 0"
      else if n =? 0 then ready None
      else ready (Some n)
  end.
Proof.
  intros Hcfg Htruthy Hfactory Hengine Hthreads fatal ready.
  subst fatal ready. run_init. rewrite Hcfg. simpl. rewrite Htruthy. simpl.
  rewrite Hfactory. simpl. rewrite Hengine. simpl. rewrite Hthreads. simpl.
  destruct (py_int threads) as [n|e]; simpl; [|reflexivity].
  unfold ThreadPoolExecutor.
  destruct (Z.ltb_spec n 0) as [Hneg|Hnonneg].
  - assert ((n =? 0) = false) as -> by lia.
    assert ((n <=? 0) = true) as -> by lia. reflexivity.
  - destruct (Z.eqb_spec n 0) as [->|Hnz]; [reflexivity|].
    assert ((n <=? 0) = false) as -> by lia. reflexivity.
Qed.

(** X6. If the SDK factory, or the creation of the engine, raises, the
    process writes the exception's message to the error stream and exits
    with code -1; no engine, no pool and no listener are set up. *)
Theorem engine_failure_is_fatal (w : World) (cfg : string) (e : PyExc) :
  environ w !! "SENZING_ENGINE_CONFIGURATION_JSON" = Some cfg ->
  truthy cfg = true ->
  (SzAbstractFactoryCore "sz_search_flask" cfg = Err e \/
   exists factory,
     SzAbstractFactoryCore "sz_search_flask" cfg = Ok factory /\
     create_engine factory = Err e) ->
  module_init w =
  (SysExit (-1),
   {| environ := environ w; stdout := stdout w;
      stderr := stderr w ++ [exc_str e]; logged := logged w;
      sz_engine := sz_engine w; executor := executor w;
      engine_calls := engine_calls w; listener := listener w |}).
Proof.
  intros Hcfg Htruthy Hfail.
  run_init. rewrite Hcfg. simpl. rewrite Htruthy. simpl.
  destruct Hfail as [Hfactory | (factory & Hfactory & Hengine)];
    rewrite Hfactory; simpl; [reflexivity|].
  rewrite Hengine. reflexivity.
Qed.

(** What the main block does: it binds the listener and returns, or it
    logs the failure and exits with code 1 without binding. *)
Lemma main_block_binds_or_exits (w : World) :
  let w' := snd (main_block w) in
  ((fst (main_block w) = Ret tt /\ is_Some (listener w')) \/
   (fst (main_block w) = SysExit 1 /\ listener w' = listener w /\
    exists msg,
      last (logged w') = Some (LogError ("Failed to start application: " +:+ msg)))) /\
  sz_engine w' = sz_engine w /\ executor w' = executor w /\
  stderr w' = stderr w.
Proof.
  unfold main_block, try_except, bind, getenv, log, sys_exit, set_listener,
    modify, lift, ret, raise.
  assert (forall (l : list LogRecord) (r : LogRecord), last (l ++ [r]) = Some r)
    as Hlast by (intros l r; apply last_snoc).
  destruct (environ w !! "PORT") as [port|]; simpl.
  - destruct (py_int port) as [n|e]; simpl.
    + destruct (app_run _ n _) as [[]|e]; simpl.
      * split; [left; split; [reflexivity | by eexists] | by repeat split].
      * split; [right | by repeat split].
        split; [reflexivity|]. split; [reflexivity|].
        eexists. apply Hlast.
    + split; [right | by repeat split].
      split; [reflexivity|]. split; [reflexivity|].
      eexists. apply Hlast.
  - destruct (app_run _ 5000 _) as [[]|e]; simpl.
    + split; [left; split; [reflexivity | by eexists] | by repeat split].
    + split; [right | by repeat split].
      split; [reflexivity|]. split; [reflexivity|].
      eexists. apply Hlast.
Qed.

(** X7. Run as a script, the module ends in one of three ways and never
    with an exception: it is serving, with a listener bound and both the
    engine and the pool set; or initialisation exited with code -1; or
    start-up of the server exited with code 1.  In the last two cases no
    listener was bound. *)
Theorem script_serves_only_when_initialised (w : World) :
  let w' := snd (script w) in
  (fst (script w) = Ret tt /\
   is_Some (listener w') /\ is_Some (sz_engine w') /\ is_Some (executor w')) \/
  (fst (script w) = SysExit (-1) /\ listener w' = listener w) \/
  (fst (script w) = SysExit 1 /\ listener w' = listener w).
Proof.
  pose proof (module_init_completes_or_exits w) as Hinit.
  unfold script, bind. simpl in Hinit |- *.
  destruct (module_init w) as [o w1]. simpl in Hinit.
  destruct Hinit as ([(-> & _ & Hengine & Hpool & _) | (-> & _)] & _ & _ & Hl & _).
  - pose proof (main_block_binds_or_exits w1) as Hmain. simpl in Hmain.
    destruct (main_block w1) as [o2 w2]. simpl in Hmain |- *.
    destruct Hmain as ([(-> & Hbound) | (-> & Hsame & _)] & He & Hp & _).
    + left. rewrite He, Hp. by repeat split.
    + right. right. split; [reflexivity | congruence].
  - right. left. split; [reflexivity | exact Hl].
Qed.

(** X8. A PORT that [int] rejects stops the server before anything is
    bound: the failure is logged and the process exits with code 1. *)
Theorem bad_port_exits_1 (w : World) (port : string) (e : PyExc) :
  environ w !! "PORT" = Some port ->
  py_int port = Err e ->
  main_block w =
  (SysExit 1,
   {| environ := environ w; stdout := stdout w; stderr := stderr w;
      logged := logged w ++
        [LogError ("Failed to start application: " +:+ exc_str e)];
      sz_engine := sz_engine w; executor := executor w;
      engine_calls := engine_calls w; listener := listener w |}).
Proof.
  intros Hport Hint.
  unfold main_block, try_except, bind, getenv, log, sys_exit, modify, lift,
    raise.
  rewrite Hport. simpl. rewrite Hint. reflexivity.
Qed.

End Startup.

Lemma thread_count_decides_the_pool_witness :
  let w := Demo.fresh {[ "SENZING_ENGINE_CONFIGURATION_JSON" := "{}";
                         "SENZING_THREADS_PER_PROCESS" := "4" ]} in
  @module_init Demo.sdk w =
  (Ret tt,
   {| environ := environ w; stdout := []; stderr := [];
      logged := [LogInfo "Senzing Engine and executor initialized successfully"];
      sz_engine := Some Demo.quiet_engine;
      executor := Some {| max_workers := Some 4 |};
      engine_calls := []; listener := None |}).
Proof.
  intros w.
  exact (@thread_count_decides_the_pool Demo.sdk w "{}" "4" tt Demo.quiet_engine
           eq_refl eq_refl eq_refl eq_refl eq_refl).
Defined.

Lemma engine_failure_is_fatal_witness :
  let broken : Sdk :=
    {| SZ_SEARCH_BY_ATTRIBUTES_DEFAULT_FLAGS := 0;
       SzFactory := unit;
       SzAbstractFactoryCore := fun _ _ =>
         Err (mkExc SzConfigurationError "no database");
       create_engine := fun _ => Ok Demo.quiet_engine;
       py_int := Demo.read_int;
       app_run := fun _ _ _ => Ok tt |} in
  let w := Demo.fresh {[ "SENZING_ENGINE_CONFIGURATION_JSON" := "{}" ]} in
  @module_init broken w =
  (SysExit (-1),
   {| environ := environ w; stdout := []; stderr := ["no database"];
      logged := []; sz_engine := None; executor := None;
      engine_calls := []; listener := None |}).
Proof.
  intros broken w.
  exact (@engine_failure_is_fatal broken w "{}"
           (mkExc SzConfigurationError "no database")
           eq_refl eq_refl (or_introl eq_refl)).
Defined.

Lemma bad_port_exits_1_witness :
  let w := Demo.fresh {[ "PORT" := "http" ]} in
  @main_block Demo.sdk w =
  (SysExit 1,
   {| environ := environ w; stdout := []; stderr := [];
      logged := [LogError ("Failed to start application: "
                           +:+ "invalid literal for int() with base 10: 'http'")];
      sz_engine := None; executor := None;
      engine_calls := []; listener := None |}).
Proof.
  intros w.
  exact (@bad_port_exits_1 Demo.sdk w "http"
           (mkExc ValueError "invalid literal for int() with base 10: 'http'")
           eq_refl eq_refl).
Defined.

End ServerMore.

(** * Further properties of the load generator *)

Module PerfMore.
Import PerfTest PerfSpec PerfMain PerfFacts.

(** *** Order statistics *)

Lemma Qlt_bool_true (a b : Q) : Qlt_bool a b = true -> (a <= b)%Q.
Proof.
  unfold Qlt_bool. intros Hlt. apply negb_true_iff in Hlt.
  destruct (Qlt_le_dec a b) as [Hab|Hba]; [by apply Qlt_le_weak|].
  apply Qle_bool_iff in Hba. congruence.
Qed.

Lemma Qlt_bool_false (a b : Q) : Qlt_bool a b = false -> (b <= a)%Q.
Proof.
  unfold Qlt_bool. intros Hlt. apply negb_false_iff in Hlt.
  by apply Qle_bool_iff.
Qed.

Lemma list_min_le_start (l : list Q) (x : Q) : (list_min x l <= x)%Q.
Proof.
  revert x. induction l as [|a l IH]; intros x; simpl; [apply Qle_refl|].
  unfold list_min in *. simpl.
  destruct (Qlt_bool a x) eqn:Hax.
  - eapply Qle_trans; [apply IH | by apply Qlt_bool_true].
  - apply IH.
Qed.

Lemma list_min_le (l : list Q) (x y : Q) :
  y ∈ x :: l -> (list_min x l <= y)%Q.
Proof.
  revert x. induction l as [|a l IH]; intros x Hin.
  - apply list_elem_of_singleton in Hin as ->. apply Qle_refl.
  - unfold list_min in *. simpl.
    apply elem_of_cons in Hin as [-> | Hin].
    + destruct (Qlt_bool a x) eqn:Hax.
      * eapply Qle_trans; [apply (list_min_le_start l a)|].
        by apply Qlt_bool_true.
      * apply (list_min_le_start l x).
    + apply elem_of_cons in Hin as [-> | Hin].
      * destruct (Qlt_bool a x) eqn:Hax.
        -- apply (list_min_le_start l a).
        -- eapply Qle_trans; [apply (list_min_le_start l x)|].
           by apply Qlt_bool_false.
      * apply IH. by apply list_elem_of_further.
Qed.

Lemma list_max_ge_start (l : list Q) (x : Q) : (x <= list_max x l)%Q.
Proof.
  revert x. induction l as [|a l IH]; intros x; simpl; [apply Qle_refl|].
  unfold list_max in *. simpl.
  destruct (Qlt_bool x a) eqn:Hxa.
  - eapply Qle_trans; [by apply Qlt_bool_true | apply IH].
  - apply IH.
Qed.

Lemma list_max_ge (l : list Q) (x y : Q) :
  y ∈ x :: l -> (y <= list_max x l)%Q.
Proof.
  revert x. induction l as [|a l IH]; intros x Hin.
  - apply list_elem_of_singleton in Hin as ->. apply Qle_refl.
  - unfold list_max in *. simpl.
    apply elem_of_cons in Hin as [-> | Hin].
    + destruct (Qlt_bool x a) eqn:Hxa.
      * eapply Qle_trans; [by apply Qlt_bool_true|].
        apply (list_max_ge_start l a).
      * apply (list_max_ge_start l x).
    + apply elem_of_cons in Hin as [-> | Hin].
      * destruct (Qlt_bool x a) eqn:Hxa.
        -- apply (list_max_ge_start l a).
        -- eapply Qle_trans; [by apply Qlt_bool_false|].
           apply (list_max_ge_start l x).
      * apply IH. by apply list_elem_of_further.
Qed.

Lemma ascending_lookup (l : list Q) (i j : nat) (x y : Q) :
  ascending l -> l !! i = Some x -> l !! j = Some y -> (i <= j)%nat ->
  (x <= y)%Q.
Proof.
  revert i j. induction l as [|a l IH]; intros i j Hasc Hi Hj Hij;
    [discriminate|].
  destruct Hasc as [Hall Hasc].
  destruct i as [|i], j as [|j]; simpl in Hi, Hj.
  - injection Hi as <-. injection Hj as <-. apply Qle_refl.
  - injection Hi as <-.
    rewrite Forall_forall in Hall. apply Hall.
    eapply list_elem_of_lookup_2. exact Hj.
  - lia.
  - eapply IH; eauto. lia.
Qed.

Lemma percentile_is_a_sample (times : list Q) (p : Q) :
  times <> [] -> p ∈ report_percentiles -> percentile times p ∈ times.
Proof.
  intros Hne Hp.
  pose proof (percentile_lookup times p Hne Hp) as Hlook.
  apply list_elem_of_lookup_2 in Hlook.
  by rewrite sorted_perm in Hlook.
Qed.

Lemma percentile_mono (times : list Q) (p q : Q) (a b : Z) :
  times <> [] ->
  p = (a # 100)%Q -> q = (b # 100)%Q -> a <= b ->
  p ∈ report_percentiles -> q ∈ report_percentiles ->
  (percentile times p <= percentile times q)%Q.
Proof.
  intros Hne -> -> Hab Hp Hq.
  pose proof (percentile_lookup times _ Hne Hp) as Hlp.
  pose proof (percentile_lookup times _ Hne Hq) as Hlq.
  eapply ascending_lookup; [apply sorted_ascending | exact Hlp | exact Hlq |].
  rewrite !percentile_index_eq.
  apply Z2Nat.inj_le.
  - apply Z.div_pos; [|lia].
    unfold report_percentiles in Hp.
    repeat (apply elem_of_cons in Hp as [Hp | Hp];
            [injection Hp as ->; lia|]). by apply elem_of_nil in Hp.
  - apply Z.div_pos; [|lia].
    unfold report_percentiles in Hq.
    repeat (apply elem_of_cons in Hq as [Hq | Hq];
            [injection Hq as ->; lia|]). by apply elem_of_nil in Hq.
  - apply Z.div_le_mono; [lia|]. nia.
Qed.

(** X9. The statistics the final report prints are consistent: every
    percentile is one of the samples, and
    minimum <= p50 <= p90 <= p95 <= p99 <= maximum. *)
Theorem reported_percentiles_are_ordered (t : Q) (ts : list Q) :
  let times := t :: ts in
  Forall (fun p => percentile times p ∈ times) report_percentiles /\
  (list_min t ts <= percentile times 0.50)%Q /\
  (percentile times 0.50 <= percentile times 0.90)%Q /\
  (percentile times 0.90 <= percentile times 0.95)%Q /\
  (percentile times 0.95 <= percentile times 0.99)%Q /\
  (percentile times 0.99 <= list_max t ts)%Q.
Proof.
  intros times.
  assert (times <> []) as Hne by discriminate.
  assert (0.50%Q ∈ report_percentiles) as H50
    by (unfold report_percentiles;
        repeat first [apply list_elem_of_here | apply list_elem_of_further]).
  assert (0.90%Q ∈ report_percentiles) as H90
    by (unfold report_percentiles;
        repeat first [apply list_elem_of_here | apply list_elem_of_further]).
  assert (0.95%Q ∈ report_percentiles) as H95
    by (unfold report_percentiles;
        repeat first [apply list_elem_of_here | apply list_elem_of_further]).
  assert (0.99%Q ∈ report_percentiles) as H99
    by (unfold report_percentiles;
        repeat first [apply list_elem_of_here | apply list_elem_of_further]).
  split; [|split; [|split; [|split; [|split]]]].
  - apply Forall_forall. intros p Hp. by apply percentile_is_a_sample.
  - apply list_min_le. by apply percentile_is_a_sample.
  - by apply (percentile_mono times _ _ 50 90).
  - by apply (percentile_mono times _ _ 90 95).
  - by apply (percentile_mono times _ _ 95 99).
  - apply list_max_ge. by apply percentile_is_a_sample.
Qed.

(** *** The reports at their edges *)

Section Reports.
Context `{Client}.

Lemma progress_report_prints (processed : Z) (w : World) (t0 : Q) :
  start_time w = Some t0 ->
  let elapsed := (clock (ticks w) - t0)%Q in
  print_progress_report processed w =
  (Ret tt,
   set_out (out w ++
              [Progress processed
                 (if Qlt_bool 0 elapsed then (inject_Z processed / elapsed)%Q
                  else 0%Q)
                 (error_count w) elapsed])
     (set_ticks (S (ticks w)) w)).
Proof.
  intros Hstart elapsed.
  destruct w as [u mw to rt ec tr st rp tk ps o]. simpl in Hstart. subst st.
  reflexivity.
Qed.

(** X10. Once the start time is set, the progress report cannot fail: when
    the clock has not advanced since the start (elapsed time zero or
    negative) it reports a rate of 0 instead of dividing. *)
Theorem progress_report_guards_division (processed : Z) (w : World) (t0 : Q) :
  start_time w = Some t0 ->
  let elapsed := (clock (ticks w) - t0)%Q in
  (elapsed <= 0)%Q ->
  print_progress_report processed w =
  (Ret tt,
   set_out (out w ++ [Progress processed 0 (error_count w) elapsed])
     (set_ticks (S (ticks w)) w)).
Proof.
  intros Hstart elapsed Hle.
  rewrite (progress_report_prints processed w t0 Hstart). fold elapsed.
  assert (Qlt_bool 0 elapsed = false) as ->; [|reflexivity].
  unfold Qlt_bool. apply negb_false_iff. by apply Qle_bool_iff.
Qed.

(** X11. The final report has no such guard: when the total time is zero it
    prints the summary up to the total time and then raises
    [ZeroDivisionError]; the overall rate and the timing statistics are not
    printed. *)
Theorem final_report_divides_by_total_time (processed : Z) (w : World)
    (t0 : Q) :
  start_time w = Some t0 ->
  let total_time := (clock (ticks w) - t0)%Q in
  (total_time == 0)%Q ->
  print_final_report processed w =
  (Raise division_by_zero,
   set_out (out w ++ take 9 (summary_lines processed w total_time))
     (set_ticks (S (ticks w)) w)).
Proof.
  intros Hstart total_time Hzero.
  apply Qeq_bool_iff in Hzero.
  destruct w as [u mw to rt ec tr st rp tk ps o].
  simpl in Hstart, total_time, Hzero. subst st.
  cbv [print_final_report since_start bind time_time get print modify ret raise
       set_out set_ticks url max_workers timeout request_times error_count
       total_requests start_time records_processed ticks posts out].
  fold total_time. rewrite Hzero.
  unfold summary_lines. simpl take.
  cbv [set_out url max_workers timeout request_times error_count
       total_requests start_time records_processed ticks posts out].
  repeat rewrite <- app_assoc.
  destruct (0 <? tr); reflexivity.
Qed.

(** X12. With no successful request the final report is the summary alone:
    no timing block is printed, and when no request was sent at all the
    success rate reads "N/A". *)
Theorem final_report_without_successes (processed : Z) (w : World) (t0 : Q) :
  start_time w = Some t0 ->
  request_times w = [] ->
  let total_time := (clock (ticks w) - t0)%Q in
  Qeq_bool total_time 0 = false ->
  print_final_report processed w =
    (Ret tt,
     set_out (out w ++ summary_lines processed w total_time)
       (set_ticks (S (ticks w)) w)) /\
  (total_requests w <= 0 ->
   summary_lines processed w total_time !! 7%nat = Some (Text "N/A")).
Proof.
  intros Hstart Htimes total_time Hnz. split.
  - destruct w as [u mw to rt ec tr st rp tk ps o].
    simpl in Hstart, Htimes, total_time, Hnz. subst st rt.
    cbv [print_final_report since_start bind time_time get print modify ret
         raise set_out set_ticks url max_workers timeout request_times
         error_count total_requests start_time records_processed ticks posts
         out].
    fold total_time. rewrite Hnz.
    unfold summary_lines.
    cbv [set_out url max_workers timeout request_times error_count
         total_requests start_time records_processed ticks posts out].
    repeat rewrite <- app_assoc.
    destruct (0 <? tr); reflexivity.
  - intros Hnone. unfold summary_lines. simpl.
    assert ((0 <? total_requests w) = false) as -> by lia. reflexivity.
Qed.

End Reports.

(** *** Counters *)

Lemma same_counts_refl (w : World) : same_counts w w.
Proof. by repeat split. Qed.

Lemma same_counts_trans (w1 w2 w3 : World) :
  same_counts w1 w2 -> same_counts w2 w3 -> same_counts w1 w3.
Proof.
  intros (Ha & Hb & Hc & Hd & He) (Ha' & Hb' & Hc' & Hd' & He').
  repeat split; congruence.
Qed.

Lemma keeps_ret {A} (a : A) : keeps_counts (ret a).
Proof. intros w. apply same_counts_refl. Qed.

Lemma keeps_raise {A} (e : PyExc) : keeps_counts (@raise World A e).
Proof. intros w. apply same_counts_refl. Qed.

Lemma keeps_get : keeps_counts (@get World).
Proof. intros w. apply same_counts_refl. Qed.

Lemma keeps_lift {A} (r : PyResult A) : keeps_counts (@lift World A r).
Proof. destruct r; [apply keeps_ret | apply keeps_raise]. Qed.

Lemma keeps_print (l : Line) : keeps_counts (print l).
Proof. intros w. by repeat split. Qed.

Lemma keeps_time_time `{Client} : keeps_counts time_time.
Proof. intros w. by repeat split. Qed.

Lemma keeps_post `{Client} (d : Json) : keeps_counts (post d).
Proof.
  intros w. unfold post.
  destruct (requests_post _ _); by repeat split.
Qed.

Lemma keeps_raise_for_status (r : HttpResponse) :
  keeps_counts (raise_for_status r).
Proof.
  intros w. unfold raise_for_status.
  destruct (truthy _); apply same_counts_refl.
Qed.

Lemma keeps_bind {A B} (m : M World A) (k : A -> M World B) :
  keeps_counts m -> (forall a, keeps_counts (k a)) -> keeps_counts (bind m k).
Proof.
  intros Hm Hk w. unfold bind. specialize (Hm w).
  destruct (m w) as [[a|e|c] w1]; simpl in *; [|assumption..].
  eapply same_counts_trans; [exact Hm | apply Hk].
Qed.

Lemma keeps_try_except {A} (m : M World A) (h : PyExc -> M World A) :
  keeps_counts m -> (forall e, keeps_counts (h e)) ->
  keeps_counts (try_except m h).
Proof.
  intros Hm Hh w. unfold try_except. specialize (Hm w).
  destruct (m w) as [[a|e|c] w1]; simpl in *; [assumption| |assumption].
  eapply same_counts_trans; [exact Hm | apply Hh].
Qed.

Lemma keeps_try_except_if {A} (test : PyExc -> bool) (m : M World A)
    (h : PyExc -> M World A) :
  keeps_counts m -> (forall e, keeps_counts (h e)) ->
  keeps_counts (try_except_if test m h).
Proof.
  intros Hm Hh w. unfold try_except_if. specialize (Hm w).
  destruct (m w) as [[a|e|c] w1]; simpl in *; [assumption| |assumption].
  destruct (test e); simpl; [|assumption].
  eapply same_counts_trans; [exact Hm | apply Hh].
Qed.

Ltac keeps_step :=
  first
    [ apply keeps_ret | apply keeps_raise | apply keeps_get | apply keeps_lift
    | apply keeps_print | apply keeps_time_time | apply keeps_post
    | apply keeps_raise_for_status
    | apply keeps_bind; [|intros ?]
    | apply keeps_try_except_if; [|intros ?]
    | apply keeps_try_except; [|intros ?]
    | match goal with
      | |- keeps_counts (match ?x with _ => _ end) => destruct x
      end
    | progress cbv zeta ].

Ltac keeps := repeat keeps_step.

Section Counting.
Context `{ClassHierarchy} `{Client}.

Lemma keeps_send_request (data : Json) : keeps_counts (send_request data).
Proof. unfold send_request. keeps. Qed.

Lemma keeps_final_report (processed : Z) :
  keeps_counts (print_final_report processed).
Proof.
  unfold print_final_report, since_start, print_percentile, list_index.
  keeps.
Qed.

(** [send_request] ends by returning or raising; it never exits. *)
Lemma send_request_no_exit (data : Json) (w : World) :
  no_exit (fst (send_request data w)).
Proof.
  unfold send_request. rewrite serialise_eq.
  destruct (serialise data) as [json_data|e];
    unfold bind, time_time, try_except_if, post, lift, ret, raise,
      raise_for_status;
    simpl.
  - destruct (requests_post _ _) as [r|e]; simpl.
    + destruct (truthy _); simpl; [|exact I].
      destruct (isinstance _ _); exact I.
    + destruct (isinstance _ _); exact I.
  - destruct (isinstance _ _); exact I.
Qed.

Lemma count_cons (test : Future RequestResult -> bool)
    (f : Future RequestResult) (l : list (Future RequestResult)) :
  count test (f :: l) = (if test f then 1 else 0) + count test l.
Proof.
  unfold count. rewrite filter_cons.
  destruct (decide (test f = true)) as [Ht|Hf].
  - rewrite Ht. simpl length. lia.
  - destruct (test f); [congruence|]. lia.
Qed.

Lemma collect_results_cons (future : Future RequestResult)
    (rest : list (Future RequestResult)) (report_interval : Z) (w : World) :
  collect_results (future :: rest) report_interval w =
  match collect_results [future] report_interval w with
  | (Ret _, w1) => collect_results rest report_interval w1
  | (Raise e, w1) => (Raise e, w1)
  | (SysExit c, w1) => (SysExit c, w1)
  end.
Proof.
  simpl. unfold bind.
  match goal with
  | |- context [try_except ?b ?h w] => destruct (try_except b h w) as [[[]|e|c] w1]
  end; reflexivity.
Qed.

(** What handling one future does to the counters. *)
Lemma collect_one (future : Future RequestResult) (report_interval : Z)
    (t0 : Q) (w : World) :
  no_exit future ->
  start_time w = Some t0 ->
  let w' := snd (collect_results [future] report_interval w) in
  fst (collect_results [future] report_interval w) = Ret tt /\
  request_times w' = request_times w ++ success_times [future] /\
  total_requests w' = total_requests w + (if holds_result future then 1 else 0) /\
  records_processed w' =
    records_processed w + (if holds_result future then 1 else 0) /\
  error_count w' =
    error_count w + (if holds_failure future then 1 else 0)
    + (if holds_exception future then 1 else 0)
    + (if report_interval =? 0
       then (if holds_result future then 1 else 0) else 0) /\
  start_time w' = Some t0.
Proof.
  intros Hfuture Hstart.
  destruct w as [u mw to rt ec tr st rp tk ps o]. simpl in Hstart. subst st.
  destruct future as [[t status size | t msg] | e | code]; [| | |contradiction];
    simpl collect_results;
    cbv [bind try_except future_result modify get ret raise print
         set_total_requests set_records_processed set_request_times
         set_error_count set_out url max_workers timeout request_times
         error_count total_requests start_time records_processed ticks posts
         out];
    destruct (report_interval =? 0); simpl;
    try destruct ((rp + 1) `mod` report_interval =? 0); simpl;
    repeat split; first [reflexivity | lia | by rewrite app_nil_r].
Qed.

Lemma collect_results_counts (futures : list (Future RequestResult))
    (report_interval : Z) (t0 : Q) :
  Forall no_exit futures ->
  forall w : World,
    start_time w = Some t0 ->
    let w' := snd (collect_results futures report_interval w) in
    fst (collect_results futures report_interval w) = Ret tt /\
    request_times w' = request_times w ++ success_times futures /\
    total_requests w' = total_requests w + count holds_result futures /\
    records_processed w' = records_processed w + count holds_result futures /\
    error_count w' =
      error_count w + count holds_failure futures
      + count holds_exception futures
      + (if report_interval =? 0 then count holds_result futures else 0) /\
    start_time w' = Some t0.
Proof.
  induction 1 as [|future rest Hfuture Hrest IH]; intros w Hstart.
  { simpl. unfold count. simpl. rewrite app_nil_r.
    destruct (report_interval =? 0);
      repeat split; try reflexivity; try assumption; lia. }
  rewrite !count_cons, collect_results_cons.
  pose proof (collect_one future report_interval t0 w Hfuture Hstart) as Hone.
  destruct (collect_results [future] report_interval w) as [o1 w1].
  simpl in Hone. destruct Hone as (-> & Ht & Hn & Hp & He & Hs).
  specialize (IH w1 Hs). simpl in IH.
  destruct IH as (Hret & Ht' & Hn' & Hp' & He' & Hs').
  simpl. split; [exact Hret|].
  split.
  { rewrite Ht', Ht, <- app_assoc. f_equal.
    destruct future as [[]| |]; reflexivity. }
  split; [lia|]. split; [lia|]. split; [|exact Hs'].
  rewrite He', He. destruct (report_interval =? 0); lia.
Qed.

Lemma futures_partition (futures : list (Future RequestResult)) :
  Forall no_exit futures ->
  count holds_result futures =
    Z.of_nat (length (success_times futures)) + count holds_failure futures /\
  count holds_result futures + count holds_exception futures =
    Z.of_nat (length futures).
Proof.
  induction 1 as [|future rest Hfuture Hrest [IH1 IH2]].
  { unfold count. simpl. lia. }
  rewrite !count_cons.
  destruct future as [[]| |]; [| | |contradiction]; simpl; simpl in *; lia.
Qed.

(** The reading loop leaves the counters alone and returns one future per
    well-formed line, none of which holds an exit. *)
Lemma read_lines_futures (lines : list string) :
  only_decode_errors lines ->
  forall (line_num : Z) (futures : list (Future RequestResult)) (w : World),
    Forall no_exit futures ->
    exists futures',
      fst (read_lines lines line_num futures w) = Ret futures' /\
      Forall no_exit futures' /\
      length futures' =
        (length futures + length (well_formed_records lines))%nat /\
      same_counts w (snd (read_lines lines line_num futures w)).
Proof.
  induction lines as [|line rest IH]; intros Hdec line_num futures w Hfut.
  { simpl. exists futures. repeat split; try done; simpl; lia. }
  specialize (IH (only_decode_errors_tail _ _ Hdec)).
  assert (forall e, line_kind line = Malformed e ->
                    isinstance e JSONDecodeError = true) as Hline.
  { intros e. apply Hdec. apply list_elem_of_here. }
  rewrite well_formed_records_cons, read_lines_cons.
  unfold line_kind in Hline |- *.
  destruct (strip line) as [|c stripped] eqn:Hstrip.
  - change (negb (truthy EmptyString)) with true. cbv iota. by apply IH.
  - change (negb (truthy (String c stripped))) with false. cbv iota.
    destruct (loads (String c stripped)) as [record|e] eqn:Hloads;
      cbv [bind try_except_if lift ret raise submit print modify].
    + pose proof (keeps_send_request record w) as Hkeep.
      pose proof (send_request_no_exit record w) as Hexit.
      destruct (send_request record w) as [r w1]. simpl in Hkeep, Hexit.
      destruct (IH (line_num + 1) (futures ++ [r]) w1) as
        (futures' & Hret & Hall & Hlen & Hsame).
      { apply Forall_app. split; [exact Hfut | by constructor]. }
      exists futures'. split; [exact Hret|]. split; [exact Hall|]. split.
      * rewrite Hlen, length_app. simpl. lia.
      * eapply same_counts_trans; eassumption.
    + rewrite (Hline e eq_refl).
      destruct (IH (line_num + 1) futures (set_out
                  (out w ++ [Text (invalid_json_message line_num e)]) w))
        as (futures' & Hret & Hall & Hlen & Hsame); [exact Hfut|].
      exists futures'. split; [exact Hret|]. split; [exact Hall|].
      split; [exact Hlen|].
      eapply same_counts_trans; [|exact Hsame]. by repeat split.
Qed.

Lemma keeps_submit {A} (task : M World A) :
  keeps_counts task -> keeps_counts (submit task).
Proof.
  intros Hkeep w. unfold submit. specialize (Hkeep w).
  by destruct (task w).
Qed.

(** The reading loop leaves the counters alone, however it ends. *)
Lemma keeps_read_lines (lines : list string) :
  forall (line_num : Z) (futures : list (Future RequestResult)),
    keeps_counts (read_lines lines line_num futures).
Proof.
  induction lines as [|line rest IH]; intros line_num futures;
    [apply keeps_ret|].
  rewrite read_lines_cons.
  destruct (negb (truthy (strip line))); [apply IH|].
  apply keeps_bind; [|intros ?; apply IH].
  apply keeps_try_except_if.
  - apply keeps_bind; [apply keeps_lift | intros record].
    apply keeps_bind; [|intros ?; apply keeps_ret].
    apply keeps_submit, keeps_send_request.
  - intros e. apply keeps_bind; [apply keeps_print | intros ?; apply keeps_ret].
Qed.

Lemma keeps_report_failure (file_path : string) (e : PyExc) :
  keeps_counts (report_failure file_path e).
Proof. unfold report_failure. keeps. Qed.

Lemma keeps_finish (completed : bool) :
  keeps_counts (if completed then
                  bind get (fun w' =>
                    bind (print_final_report (records_processed w'))
                      (fun _ => ret true))
                else ret false).
Proof.
  destruct completed; [|apply keeps_ret].
  apply keeps_bind; [apply keeps_get | intros w'].
  apply keeps_bind; [apply keeps_final_report | intros ?; apply keeps_ret].
Qed.

(** The state in which the [try] of [process_file] starts. *)
Lemma prelude_counts (report_interval : Z) (w : World) :
  let w0 := snd (bind (print_configuration report_interval)
                   (fun _ => start_clock) w) in
  request_times w0 = request_times w /\
  error_count w0 = error_count w /\
  total_requests w0 = total_requests w /\
  start_time w0 = Some (clock (ticks w)) /\
  records_processed w0 = 0 /\
  max_workers w0 = max_workers w.
Proof. destruct w. by repeat split. Qed.

(** The run of [process_file] on a file that opens, split at the end of
    the reading loop. *)
Lemma process_file_counts (file_path : string) (report_interval : Z)
    (w : World) (lines : list string) :
  open_file file_path = Ok lines ->
  read_error file_path = None ->
  0 < max_workers w ->
  only_decode_errors lines ->
  exists futures : list (Future RequestResult),
    Forall no_exit futures /\
    length futures = length (well_formed_records lines) /\
    let w' := snd (process_file file_path report_interval w) in
    request_times w' = request_times w ++ success_times futures /\
    total_requests w' = total_requests w + count holds_result futures /\
    records_processed w' = count holds_result futures /\
    error_count w' =
      error_count w + count holds_failure futures
      + count holds_exception futures
      + (if report_interval =? 0 then count holds_result futures else 0).
Proof.
  intros Hopen Hread Hworkers Hdec.
  rewrite process_file_from_start.
  pose proof (prelude_counts report_interval w) as Hpre.
  cbv zeta in Hpre.
  set (w0 := snd (bind (print_configuration report_interval)
                    (fun _ => start_clock) w)) in *.
  destruct Hpre as (Ht0 & He0 & Hn0 & Hs0 & Hp0 & Hm0).
  destruct (read_lines_futures lines Hdec 1 [] w0 ltac:(constructor))
    as (futures & Hret & Hall & Hlen & Hsame).
  exists futures. split; [exact Hall|]. split; [exact Hlen|].
  assert (start_time (snd (read_lines lines 1 [] w0)) = Some (clock (ticks w)))
    as Hstart.
  { destruct Hsame as (_ & _ & _ & Hs & _). by rewrite Hs. }
  pose proof (collect_results_counts futures report_interval _ Hall
                (snd (read_lines lines 1 [] w0)) Hstart) as Hcollect.
  assert (try_except (submit_and_collect file_path report_interval)
            (report_failure file_path) w0 =
          (Ret true,
           snd (collect_results futures report_interval
                  (snd (read_lines lines 1 [] w0))))) as Hrun.
  { unfold try_except, submit_and_collect. rewrite Hopen.
    unfold bind at 1. simpl lift. unfold ret at 1. unfold bind at 1.
    rewrite new_pool_created by (rewrite Hm0; exact Hworkers).
    unfold bind at 1.
    destruct (read_lines lines 1 [] w0) as [o1 w1]. simpl in Hret. subst o1.
    unfold bind at 1, end_of_file. rewrite Hread. unfold ret at 1.
    unfold bind at 1. simpl in Hcollect |- *.
    destruct (collect_results futures report_interval w1) as [o2 w2].
    simpl in Hcollect. destruct Hcollect as (-> & _). reflexivity. }
  unfold bind at 1. rewrite Hrun.
  set (w2 := snd (collect_results futures report_interval
                    (snd (read_lines lines 1 [] w0)))) in *.
  pose proof (keeps_finish true w2) as Hfinal.
  simpl in Hcollect.
  destruct Hcollect as (_ & Ht & Hn & Hp & He & _).
  destruct Hsame as (Ht1 & He1 & Hn1 & _ & Hp1).
  destruct Hfinal as (Ht3 & He3 & Hn3 & _ & Hp3).
  simpl. rewrite Ht3, He3, Hn3, Hp3, Ht, Hn, Hp, He.
  rewrite Ht1, He1, Hn1, Hp1, Ht0, He0, Hn0, Hp0.
  repeat split; lia.
Qed.

(** X13. Collecting the results counts every future exactly once: a
    successful result adds its latency to [request_times], a failed result
    or an exception adds one to [error_count], and every result (not every
    exception) adds one to [total_requests] and to the processed count.
    With a report interval of 0 the modulo raises for every result, so each
    result is counted as an error as well. *)
Theorem collect_results_accounts (futures : list (Future RequestResult))
    (report_interval : Z) (t0 : Q) (w : World) :
  Forall no_exit futures ->
  start_time w = Some t0 ->
  let w' := snd (collect_results futures report_interval w) in
  fst (collect_results futures report_interval w) = Ret tt /\
  request_times w' = request_times w ++ success_times futures /\
  total_requests w' = total_requests w + count holds_result futures /\
  records_processed w' = records_processed w + count holds_result futures /\
  error_count w' =
    error_count w + count holds_failure futures
    + count holds_exception futures
    + (if report_interval =? 0 then count holds_result futures else 0).
Proof.
  intros Hall Hstart.
  pose proof (collect_results_counts futures report_interval t0 Hall w Hstart)
    as Hcounts.
  simpl in Hcounts |- *.
  destruct Hcounts as (Hret & Ht & Hn & Hp & He & _). by repeat split.
Qed.

(** X14. Take a run with a positive worker count and a non-zero report
    interval over a file that opens and is read to its end: the iteration
    over the file raises nothing, and every line that fails to parse raises
    a [JSONDecodeError].  Such a run accounts for every well-formed line
    exactly once, as a recorded latency or as an error; the requests
    counted in the run are those that came back with a result, and the
    processed count equals them. *)
Theorem every_record_is_counted_once (file_path : string)
    (report_interval : Z) (w : World) (lines : list string) :
  open_file file_path = Ok lines ->
  read_error file_path = None ->
  0 < max_workers w ->
  only_decode_errors lines ->
  report_interval <> 0 ->
  let w' := snd (process_file file_path report_interval w) in
  let submitted := Z.of_nat (length (well_formed_records lines)) in
  Z.of_nat (length (request_times w')) - Z.of_nat (length (request_times w))
    + (error_count w' - error_count w) = submitted /\
  0 <= total_requests w' - total_requests w <= submitted /\
  records_processed w' = total_requests w' - total_requests w.
Proof.
  intros Hopen Hread Hworkers Hdec Hinterval.
  destruct (process_file_counts file_path report_interval w lines
              Hopen Hread Hworkers Hdec) as (futures & Hall & Hlen & Hcounts).
  simpl in Hcounts |- *. destruct Hcounts as (Ht & Hn & Hp & He).
  destruct (futures_partition futures Hall) as [Hres Htot].
  assert ((report_interval =? 0) = false) as Hnz by lia.
  rewrite Hnz in He.
  rewrite Ht, length_app, Hn, Hp, He, <- Hlen.
  unfold count in *. repeat split; lia.
Qed.

(** X15. Take a run with a positive worker count and a report interval of
    0 over a file that opens and is read to its end: the iteration over the
    file raises nothing, and every line that fails to parse raises a
    [JSONDecodeError].  Such a run counts every request that came back as
    an error too, successful or not: the error count grows by at least the
    number of well-formed lines. *)
Theorem zero_interval_counts_results_as_errors (file_path : string)
    (w : World) (lines : list string) :
  open_file file_path = Ok lines ->
  read_error file_path = None ->
  0 < max_workers w ->
  only_decode_errors lines ->
  let w' := snd (process_file file_path 0 w) in
  let submitted := Z.of_nat (length (well_formed_records lines)) in
  error_count w' - error_count w >= submitted /\
  Z.of_nat (length (request_times w')) - Z.of_nat (length (request_times w))
    + (error_count w' - error_count w)
    = submitted + (total_requests w' - total_requests w).
Proof.
  intros Hopen Hread Hworkers Hdec.
  destruct (process_file_counts file_path 0 w lines Hopen Hread Hworkers Hdec)
    as (futures & Hall & Hlen & Hcounts).
  simpl in Hcounts |- *. destruct Hcounts as (Ht & Hn & Hp & He).
  destruct (futures_partition futures Hall) as [Hres Htot].
  rewrite Ht, length_app, Hn, He, <- Hlen.
  unfold count in *. split; lia.
Qed.

(** A run whose reading is cut short returns [False] from the state the
    reading loop left, but for what the [except] clause prints. *)
Lemma cut_short_run (file_path : string) (report_interval : Z) (w : World)
    (lines : list string) :
  open_file file_path = Ok lines ->
  0 < max_workers w ->
  cut_short file_path lines ->
  let w0 := snd (bind (print_configuration report_interval)
                   (fun _ => start_clock) w) in
  exists w2,
    process_file file_path report_interval w = (Ret false, w2) /\
    same_counts (snd (read_lines lines 1 [] w0)) w2.
Proof.
  intros Hopen Hworkers Hcut w0. rewrite process_file_from_start.
  fold w0.
  assert (0 < max_workers w0) as Hworkers0.
  { pose proof (prelude_counts report_interval w) as Hpre. cbv zeta in Hpre.
    destruct Hpre as (_ & _ & _ & _ & _ & Hm0). fold w0 in Hm0.
    rewrite Hm0. exact Hworkers. }
  destruct (cut_short_raises file_path report_interval lines w0
              Hopen Hworkers0 Hcut) as [e Hrun].
  set (w1 := snd (read_lines lines 1 [] w0)) in *.
  pose proof (keeps_report_failure file_path e w1) as Hreport.
  pose proof (report_failure_returns_false file_path e w1) as Hfalse.
  unfold bind at 1, try_except. rewrite Hrun.
  destruct (report_failure file_path e w1) as [r w2].
  simpl in Hreport, Hfalse. subst r. by exists w2.
Qed.

(** X18. A run whose reading is cut short, by a line whose parse raises
    something other than a [JSONDecodeError] or by an error of the iteration
    over the file, returns [False] without collecting anything: the requests
    of the lines handled until then were posted, yet [request_times],
    [error_count] and [total_requests] are what they were and no record
    counts as processed. *)
Theorem cut_short_run_collects_nothing (file_path : string)
    (report_interval : Z) (w : World) (lines : list string) :
  open_file file_path = Ok lines ->
  0 < max_workers w ->
  cut_short file_path lines ->
  let w' := snd (process_file file_path report_interval w) in
  fst (process_file file_path report_interval w) = Ret false /\
  posts w' =
    posts w ++
    flat_map (calls_for w) (well_formed_records (lines_handled lines)) /\
  request_times w' = request_times w /\
  error_count w' = error_count w /\
  total_requests w' = total_requests w /\
  records_processed w' = 0.
Proof.
  intros Hopen Hworkers Hcut.
  pose proof (process_file_handles file_path report_interval w lines
                Hopen Hworkers) as (_ & _ & _ & Hposts & _).
  destruct (cut_short_run file_path report_interval w lines
              Hopen Hworkers Hcut) as (w2 & Hrun & Hreport).
  pose proof (prelude_counts report_interval w) as Hpre.
  cbv zeta in Hpre.
  set (w0 := snd (bind (print_configuration report_interval)
                    (fun _ => start_clock) w)) in *.
  destruct Hpre as (Ht0 & He0 & Hn0 & _ & Hp0 & _).
  pose proof (keeps_read_lines lines 1 [] w0) as Hread.
  set (w1 := snd (read_lines lines 1 [] w0)) in *.
  rewrite Hrun in Hposts |- *. simpl in Hposts |- *.
  destruct Hread as (Ht1 & He1 & Hn1 & _ & Hp1).
  destruct Hreport as (Ht2 & He2 & Hn2 & _ & Hp2).
  repeat split; congruence.
Qed.

(** What [process_file] does when the file cannot be opened, whatever the
    exception: it returns [False] and posts nothing. *)
Lemma process_file_open_failure (file_path : string) (report_interval : Z)
    (w : World) (e : PyExc) :
  open_file file_path = Err e ->
  fst (process_file file_path report_interval w) = Ret false /\
  quiet w (snd (process_file file_path report_interval w)).
Proof.
  intros Hopen. rewrite process_file_from_start.
  pose proof (quietly_prelude report_interval w) as Hstart.
  set (w0 := snd (bind (print_configuration report_interval)
                    (fun _ => start_clock) w)) in *.
  assert (exists msg,
            try_except (submit_and_collect file_path report_interval)
              (report_failure file_path) w0 =
            (Ret false, set_out (out w0 ++ [Text msg]) w0)) as [msg Hrun].
  { unfold try_except, submit_and_collect, bind at 1. rewrite Hopen. simpl.
    unfold report_failure.
    destruct (isinstance e FileNotFoundError); by eexists. }
  match goal with
  | |- fst ?r = _ /\ _ =>
      assert (r = (Ret false, set_out (out w0 ++ [Text msg]) w0)) as ->
        by (unfold bind at 1; rewrite Hrun; reflexivity)
  end.
  split; [reflexivity|].
  eapply quiet_trans; [exact Hstart|]. apply (quietly_print (Text msg)).
Qed.

(** X16. A worker count that is not positive stops the run before any
    line is read: the pool cannot be created, the error is reported as
    unexpected, nothing is posted and the run returns [False]. *)
Theorem nonpositive_workers_post_nothing (file_path : string)
    (report_interval : Z) (w : World) (lines : list string) :
  FileNotFoundError ∉ mro ValueError ->
  open_file file_path = Ok lines ->
  max_workers w <= 0 ->
  fst (process_file file_path report_interval w) = Ret false /\
  extends []
    ["ERROR: Unexpected error: max_workers must be greater than 0"] w
    (snd (process_file file_path report_interval w)).
Proof.
  intros Hhier Hopen Hworkers. rewrite process_file_from_start.
  pose proof (quietly_prelude report_interval w) as Hstart.
  set (w0 := snd (bind (print_configuration report_interval)
                    (fun _ => start_clock) w)) in *.
  assert (max_workers w0 <= 0) as Hw0.
  { destruct Hstart as (_ & _ & Hm & _). by rewrite Hm. }
  assert (try_except (submit_and_collect file_path report_interval)
            (report_failure file_path) w0 =
          (Ret false,
           set_out (out w0 ++
                      [Text ("ERROR: Unexpected error: "
                             +:+ "max_workers must be greater than 0")]) w0))
    as Hrun.
  { unfold try_except, submit_and_collect. rewrite Hopen.
    unfold bind at 1. simpl lift. unfold ret at 1. unfold bind at 1.
    unfold new_pool, bind at 1, get.
    assert ((max_workers w0 <=? 0) = true) as -> by lia. simpl.
    unfold report_failure, isinstance. simpl exc_type.
    rewrite bool_decide_eq_false_2 by exact Hhier. reflexivity. }
  match goal with
  | |- fst ?r = _ /\ _ =>
      assert (r = (Ret false,
                   set_out (out w0 ++
                              [Text ("ERROR: Unexpected error: "
                                     +:+ "max_workers must be greater than 0")])
                     w0)) as ->
        by (unfold bind at 1; rewrite Hrun; reflexivity)
  end.
  split; [reflexivity|].
  eapply quiet_extends; [exact Hstart|]. apply printed_extends.
Qed.

End Counting.

(** *** The entry point *)

Section Main.
Context `{ClassHierarchy} `{Client} `{Os}.

(** X17. [main] exits with status 1 without posting anything when the input
    cannot be used: when the path is not a file it says so and touches
    nothing else; when the file is there but cannot be opened, the run
    returns [False] and [main] turns that into the exit status. *)
Theorem main_exits_1_when_file_unusable (args : Args) (w : World) :
  (isfile (arg_file_path args) = false ->
   main args w =
   (SysExit 1,
    set_out (out w ++
               [Text ("ERROR: File does not exist: " +:+ arg_file_path args)])
      w)) /\
  (forall e,
     isfile (arg_file_path args) = true ->
     arg_workers args <> 0 ->
     open_file (arg_file_path args) = Err e ->
     fst (main args w) = SysExit 1 /\
     posts (snd (main args w)) = posts w).
Proof.
  split.
  - intros Hfile. unfold main. rewrite Hfile. reflexivity.
  - intros e Hfile Hworkers Hopen.
    set (wi := {| url := arg_url args; max_workers := arg_workers args;
                  timeout := arg_timeout args; request_times := [];
                  error_count := 0; total_requests := 0; start_time := None;
                  records_processed := records_processed w; ticks := ticks w;
                  posts := posts w; out := out w |}).
    destruct (process_file_open_failure (arg_file_path args)
                (arg_report_interval args) wi e Hopen) as [Hret Hquiet].
    assert (main args w =
            (SysExit 1,
             snd (process_file (arg_file_path args)
                    (arg_report_interval args) wi))) as ->.
    { unfold main. rewrite Hfile. simpl negb. cbv iota.
      unfold bind at 1. unfold ret at 1. unfold bind at 1.
      unfold init.
      assert ((arg_workers args =? 0) = false) as -> by lia.
      unfold bind at 1. unfold lift, ret at 1, modify.
      fold wi. unfold bind at 1.
      destruct (process_file (arg_file_path args) (arg_report_interval args) wi)
        as [o w'].
      simpl in Hret. subst o. reflexivity. }
    split; [reflexivity|].
    destruct Hquiet as (_ & _ & _ & Hposts & _).
    simpl. rewrite Hposts. simpl. by rewrite app_nil_r.
Qed.

End Main.

(** *** The extra properties on concrete runs *)

Lemma progress_report_guards_division_witness :
  let cl := PerfDemo.client (fun _ => PerfDemo.answer 200 "OK") PerfDemo.no_files in
  let w := set_start_time (Some 0%Q) PerfDemo.new_test in
  @print_progress_report cl 5 w =
  (Ret tt,
   set_out [Progress 5 0 0 (@clock cl 0 - 0)%Q] (set_ticks 1 w)).
Proof.
  intros cl w.
  apply (@progress_report_guards_division cl 5 w 0%Q); [reflexivity|].
  vm_compute. discriminate.
Defined.

Lemma final_report_divides_by_total_time_witness :
  let cl := PerfDemo.client (fun _ => PerfDemo.answer 200 "OK") PerfDemo.no_files in
  let w := set_start_time (Some 0%Q) PerfDemo.new_test in
  @print_final_report cl 0 w =
  (Raise division_by_zero,
   set_out (take 9 (summary_lines 0 w (@clock cl 0 - 0)%Q)) (set_ticks 1 w)).
Proof.
  intros cl w.
  apply (@final_report_divides_by_total_time cl 0 w 0%Q); reflexivity.
Defined.

Lemma final_report_without_successes_witness :
  let cl := PerfDemo.client (fun _ => PerfDemo.answer 200 "OK") PerfDemo.no_files in
  let w := PerfDemo.finished_test [] in
  @print_final_report cl 0 w =
    (Ret tt,
     set_out (out w ++ summary_lines 0 w (@clock cl 20 - 0)%Q)
       (set_ticks 21 w)) /\
  (total_requests w <= 0 ->
   summary_lines 0 w (@clock cl 20 - 0)%Q !! 7%nat = Some (Text "N/A")).
Proof.
  intros cl w.
  exact (@final_report_without_successes cl 0 w 0%Q eq_refl eq_refl eq_refl).
Defined.

Lemma collect_results_accounts_witness :
  let cl := PerfDemo.client (fun _ => PerfDemo.answer 200 "OK") PerfDemo.no_files in
  let futures : list (Future RequestResult) :=
    [ Ret (Success 0.1%Q 200 16); Ret (Failure 0.2%Q "503 Server Error");
      Raise (mkExc TypeError "not iterable") ] in
  let w := PerfDemo.finished_test [] in
  let w' := snd (@collect_results cl futures 10 w) in
  fst (@collect_results cl futures 10 w) = Ret tt /\
  request_times w' = [0.1%Q] /\
  total_requests w' = 2 /\
  records_processed w' = 2 /\
  error_count w' = 2.
Proof.
  intros cl futures w.
  apply (@collect_results_accounts cl futures 10 0%Q w); [|reflexivity].
  repeat constructor.
Defined.

Lemma demo_lines_only_decode_errors :
  let lines := ["{}"; "  "; "oops"; " {} "] in
  let cl := PerfDemo.client (fun _ => PerfDemo.answer 200 "OK")
              (PerfDemo.one_file lines) in
  @only_decode_errors cl python_hierarchy lines.
Proof.
  intros lines cl line e Hin Hkind.
  repeat (apply elem_of_cons in Hin as [-> | Hin]);
    [ discriminate Hkind | discriminate Hkind
    | injection Hkind as <-; reflexivity
    | discriminate Hkind
    | by apply elem_of_nil in Hin ].
Defined.

Lemma every_record_is_counted_once_witness :
  let lines := ["{}"; "  "; "oops"; " {} "] in
  let cl := PerfDemo.client (fun _ => PerfDemo.answer 200 "OK")
              (PerfDemo.one_file lines) in
  let w := PerfDemo.new_test in
  let w' := snd (@process_file python_hierarchy cl "records.jsonl" 1 w) in
  Z.of_nat (length (request_times w')) - 0 + (error_count w' - 0) = 2 /\
  0 <= total_requests w' - 0 <= 2 /\
  records_processed w' = total_requests w' - 0.
Proof.
  intros lines cl w.
  apply (@every_record_is_counted_once python_hierarchy cl "records.jsonl" 1
           w lines).
  - reflexivity.
  - reflexivity.
  - reflexivity.
  - exact demo_lines_only_decode_errors.
  - discriminate.
Defined.

Lemma zero_interval_counts_results_as_errors_witness :
  let lines := ["{}"; "  "; "oops"; " {} "] in
  let cl := PerfDemo.client (fun _ => PerfDemo.answer 200 "OK")
              (PerfDemo.one_file lines) in
  let w := PerfDemo.new_test in
  let w' := snd (@process_file python_hierarchy cl "records.jsonl" 0 w) in
  error_count w' - 0 >= 2 /\
  Z.of_nat (length (request_times w')) - 0 + (error_count w' - 0)
    = 2 + (total_requests w' - 0).
Proof.
  intros lines cl w.
  apply (@zero_interval_counts_results_as_errors python_hierarchy cl
           "records.jsonl" w lines).
  - reflexivity.
  - reflexivity.
  - reflexivity.
  - exact demo_lines_only_decode_errors.
Defined.

Lemma cut_short_run_collects_nothing_witness :
  let lines := ["{}"; repeat_string "9" 4301; "{}"] in
  let cl := PerfDemo.client_of PerfDemo.read_limited (fun _ => Ok "{}")
              (fun _ => PerfDemo.answer 200 "OK") (PerfDemo.one_file lines) in
  let w := PerfDemo.new_test in
  let w' := snd (@process_file python_hierarchy cl "records.jsonl" 1 w) in
  fst (@process_file python_hierarchy cl "records.jsonl" 1 w) = Ret false /\
  posts w' = [call_with w (JStr "{}")] /\
  request_times w' = [] /\
  error_count w' = 0 /\
  total_requests w' = 0 /\
  records_processed w' = 0.
Proof.
  intros lines cl w.
  apply (@cut_short_run_collects_nothing python_hierarchy cl "records.jsonl" 1
           w lines).
  - reflexivity.
  - reflexivity.
  - left. vm_compute. reflexivity.
Defined.

Lemma nonpositive_workers_post_nothing_witness :
  let cl := PerfDemo.client (fun _ => PerfDemo.answer 200 "OK")
              (PerfDemo.one_file ["{}"]) in
  let w := {| url := "http://localhost:5000/search"; max_workers := -1;
              timeout := 10; request_times := []; error_count := 0;
              total_requests := 0; start_time := None;
              records_processed := 0; ticks := 0; posts := []; out := [] |} in
  fst (@process_file python_hierarchy cl "records.jsonl" 1000 w) = Ret false /\
  extends []
    ["ERROR: Unexpected error: max_workers must be greater than 0"] w
    (snd (@process_file python_hierarchy cl "records.jsonl" 1000 w)).
Proof.
  intros cl w.
  apply (@nonpositive_workers_post_nothing python_hierarchy cl
           "records.jsonl" 1000 w ["{}"]).
  - intros Hin.
    repeat (apply elem_of_cons in Hin as [Hin | Hin]; [discriminate Hin|]).
    by apply elem_of_nil in Hin.
  - reflexivity.
  - simpl. lia.
Defined.

Lemma main_exits_1_when_file_unusable_witness :
  let cl := PerfDemo.client (fun _ => PerfDemo.answer 200 "OK") PerfDemo.no_files in
  let nothing : Os :=
    {| os_environ := ∅; isfile := fun _ => false;
       int_of_str := Demo.read_int |} in
  let stale : Os :=
    {| os_environ := ∅; isfile := fun _ => true;
       int_of_str := Demo.read_int |} in
  let args := {| arg_file_path := "records.jsonl";
                 arg_url := "http://localhost:5000/search";
                 arg_workers := 10; arg_timeout := 30;
                 arg_report_interval := 1000 |} in
  let w := PerfDemo.new_test in
  @main python_hierarchy cl nothing args w =
    (SysExit 1,
     set_out [Text "ERROR: File does not exist: records.jsonl"] w) /\
  fst (@main python_hierarchy cl stale args w) = SysExit 1 /\
  posts (snd (@main python_hierarchy cl stale args w)) = [].
Proof.
  intros cl nothing stale args w. split.
  - apply (proj1 (@main_exits_1_when_file_unusable python_hierarchy cl
                    nothing args w)). reflexivity.
  - apply (proj2 (@main_exits_1_when_file_unusable python_hierarchy cl
                    stale args w)
             (mkExc FileNotFoundError
                "[Errno 2] No such file or directory: 'records.jsonl'"));
      [reflexivity | discriminate | reflexivity].
Defined.

End PerfMore.
